(** * pyfoscam: the command protocol engine of [libpyfoscam/foscam.py]

    A shallow embedding of [FoscamCamera.__init__], [send_command],
    [execute_command] and the read-modify-write operation
    [set_motion_detection], with the properties of the engine's
    request builder, response decoder and dispatcher.

    Python [str] and [bytes] are both modelled as [string]; a [str] is
    the sequence of the UTF-8 bytes of its text.  The network, the XML
    parser of the Python standard library, the caller's callbacks and
    what [int()] takes from the interpreter (its limit on the number of
    digits, its table of the decimal digits and spaces of Unicode) are
    parameters of the model (class [Platform]). *)

From Stdlib Require Import String Ascii List ZArith Bool Lia.
From Stdlib Require Import DecimalString DecimalPos.
Import ListNotations.

Set Warnings "-register-all".

Open Scope string_scope.
Open Scope Z_scope.

(** ** Error codes (module-level constants of foscam.py) *)

Definition FOSCAM_SUCCESS : Z := 0.
Definition ERROR_FOSCAM_FORMAT : Z := -1.
Definition ERROR_FOSCAM_AUTH : Z := -2.
Definition ERROR_FOSCAM_CMD : Z := -3.
Definition ERROR_FOSCAM_EXE : Z := -4.
Definition ERROR_FOSCAM_TIMEOUT : Z := -5.
Definition ERROR_FOSCAM_UNKNOWN : Z := -7.
Definition ERROR_FOSCAM_UNAVAILABLE : Z := -8.

(** ** Python values and builtins used by the engine *)

(** The scalars that occur as parameter values: [None], a [str], an [int]. *)
Inductive pyval : Type :=
| VNone
| VStr (s : string)
| VInt (z : Z).

(** [f"{z}"] and [str(z)] for an [int]. *)
Definition string_of_Z (z : Z) : string :=
  NilZero.string_of_int (Z.to_int z).

(** [str(v)]. *)
Definition py_str (v : pyval) : string :=
  match v with
  | VNone => "None"
  | VStr s => s
  | VInt z => string_of_Z z
  end.

Definition in_range (lo hi : nat) (c : ascii) : bool :=
  let n := nat_of_ascii c in (Nat.leb lo n && Nat.leb n hi)%bool.

Definition is_digit (c : ascii) : bool := in_range 48 57 c.
Definition is_alpha (c : ascii) : bool :=
  (in_range 65 90 c || in_range 97 122 c)%bool.

(** The white space [int()] skips around an ASCII text: TAB, LF, VT,
    FF, CR and space. *)
Definition is_space (c : ascii) : bool :=
  (in_range 9 13 c || Ascii.eqb c " ")%bool.

Fixpoint lstrip (s : string) : string :=
  match s with
  | String c r => if is_space c then lstrip r else s
  | EmptyString => EmptyString
  end.

Fixpoint string_rev (s : string) : string :=
  match s with
  | EmptyString => EmptyString
  | String c r => string_rev r ++ String c EmptyString
  end.

Definition strip (s : string) : string :=
  string_rev (lstrip (string_rev (lstrip s))).

(** Decimal digits, single underscores allowed between two digits. *)
Fixpoint int_digits (acc : Z) (after_digit : bool) (s : string) : option Z :=
  match s with
  | EmptyString => if after_digit then Some acc else None
  | String c r =>
      if is_digit c then
        int_digits (10 * acc + Z.of_nat (nat_of_ascii c - 48)) true r
      else if (Ascii.eqb c "_" && after_digit)%bool then
        int_digits acc false r
      else None
  end.

(** Whether a text has ASCII characters only. *)
Fixpoint is_ascii (s : string) : bool :=
  match s with
  | EmptyString => true
  | String c r => (Nat.ltb (nat_of_ascii c) 128 && is_ascii r)%bool
  end.

(** The number of decimal digits in a text. *)
Fixpoint count_digits (s : string) : nat :=
  match s with
  | EmptyString => O
  | String c r => ((if is_digit c then 1 else 0) + count_digits r)%nat
  end.

(** The digits of [int(s)], after the sign: more digits than [limit]
    (when [limit] is not 0) are refused. *)
Definition int_body (limit : nat) (t : string) : option Z :=
  if (Nat.ltb 0 limit && Nat.ltb limit (count_digits t))%bool then None
  else int_digits 0 false t.

(** [int(s)] for an ASCII [str], under the interpreter's limit
    [sys.get_int_max_str_digits()] (0: no limit): [None] stands for
    [ValueError]. *)
Definition int_ascii (limit : nat) (s : string) : option Z :=
  match strip s with
  | String "-" r => option_map Z.opp (int_body limit r)
  | String "+" r => int_body limit r
  | t => int_body limit t
  end.

(** ** urllib: [quote_plus], [urlencode], [unquote] *)

Definition hex_digit (n : nat) : ascii :=
  match get n "0123456789ABCDEF" with
  | Some c => c
  | None => "0"%char
  end.

(** Letters, digits and [_.-~] are never quoted. *)
Definition always_safe (c : ascii) : bool :=
  (is_alpha c || is_digit c || Ascii.eqb c "_" || Ascii.eqb c "."
   || Ascii.eqb c "-" || Ascii.eqb c "~")%bool.

Definition quote_plus_byte (c : ascii) : string :=
  if always_safe c then String c EmptyString
  else if Ascii.eqb c " " then "+"
  else String "%" (String (hex_digit (nat_of_ascii c / 16))
                     (String (hex_digit (nat_of_ascii c mod 16)) EmptyString)).

(** [quote_plus(s)] with the empty [safe] set [urlencode] passes. *)
Fixpoint quote_plus (s : string) : string :=
  match s with
  | EmptyString => EmptyString
  | String c r => quote_plus_byte c ++ quote_plus r
  end.

(** An [OrderedDict] (or an insertion-ordered [dict]) with [str] keys:
    the items in insertion order, keys pairwise distinct. *)
Definition odict : Type := list (string * pyval).

Definition encode_item (kv : string * pyval) : string :=
  quote_plus (fst kv) ++ "=" ++ quote_plus (py_str (snd kv)).

(** [sep.join(l)]. *)
Fixpoint join (sep : string) (l : list string) : string :=
  match l with
  | [] => EmptyString
  | [x] => x
  | x :: r => x ++ sep ++ join sep r
  end.

(** [urlencode(params)] on a mapping. *)
Definition urlencode (params : odict) : string :=
  join "&" (map encode_item params).

Definition hex_value (c : ascii) : option nat :=
  if is_digit c then Some (nat_of_ascii c - 48)%nat
  else if in_range 65 70 c then Some (nat_of_ascii c - 55)%nat
  else if in_range 97 102 c then Some (nat_of_ascii c - 87)%nat
  else None.

(** [unquote_to_bytes(s)]: every [%XX] with two hex digits becomes the
    byte [XX]; a [%] not followed by two hex digits stays. *)
Fixpoint unquote_to_bytes (s : string) : string :=
  match s with
  | EmptyString => EmptyString
  | String c r =>
      match r with
      | String h (String l r') =>
          match Ascii.eqb c "%", hex_value h, hex_value l with
          | true, Some a, Some b =>
              String (ascii_of_nat (16 * a + b)) (unquote_to_bytes r')
          | _, _, _ => String c (unquote_to_bytes r)
          end
      | _ => String c (unquote_to_bytes r)
      end
  end.

(** The decoder of [bytes.decode("utf-8", "replace")] between two
    characters, or inside one: after the bytes [seen] it needs [need]
    more bytes, the next one in [lo..hi]. *)
Inductive utf8_state : Type :=
| Utf8Start
| Utf8Pending (seen : string) (need lo hi : nat).

(** U+FFFD, in UTF-8. *)
Definition replacement : string :=
  String (ascii_of_nat 239)
    (String (ascii_of_nat 191) (String (ascii_of_nat 189) EmptyString)).

(** The first byte of a character: an ASCII byte is a character, a lead
    byte opens a sequence, any other byte is replaced. *)
Definition utf8_first (c : ascii) : string * utf8_state :=
  let n := nat_of_ascii c in
  let one := String c EmptyString in
  if Nat.ltb n 128 then (one, Utf8Start)
  else if in_range 194 223 c then (EmptyString, Utf8Pending one 1 128 191)
  else if Nat.eqb n 224 then (EmptyString, Utf8Pending one 2 160 191)
  else if Nat.eqb n 237 then (EmptyString, Utf8Pending one 2 128 159)
  else if in_range 225 239 c then (EmptyString, Utf8Pending one 2 128 191)
  else if Nat.eqb n 240 then (EmptyString, Utf8Pending one 3 144 191)
  else if Nat.eqb n 244 then (EmptyString, Utf8Pending one 3 128 143)
  else if in_range 241 243 c then (EmptyString, Utf8Pending one 3 128 191)
  else (replacement, Utf8Start).

(** The bytes decoded and encoded again: a well-formed sequence is kept,
    and U+FFFD stands for every longest ill-formed run that begins a
    sequence, or single byte that begins none. *)
Fixpoint utf8_run (st : utf8_state) (s : string) : string :=
  match s with
  | EmptyString =>
      match st with
      | Utf8Start => EmptyString
      | Utf8Pending _ _ _ _ => replacement
      end
  | String c r =>
      match st with
      | Utf8Start =>
          fst (utf8_first c) ++ utf8_run (snd (utf8_first c)) r
      | Utf8Pending seen need lo hi =>
          if in_range lo hi c then
            match need with
            | S (S k) =>
                utf8_run
                  (Utf8Pending (seen ++ String c EmptyString) (S k) 128 191)
                  r
            | _ => (seen ++ String c EmptyString) ++ utf8_run Utf8Start r
            end
          else
            replacement ++ fst (utf8_first c)
            ++ utf8_run (snd (utf8_first c)) r
      end
  end.

Definition utf8_replace (s : string) : string := utf8_run Utf8Start s.

(** [unquote(s)] for a [str]: the bytes of [unquote_to_bytes], decoded
    as UTF-8 with U+FFFD for what does not decode.  (urllib decodes each
    run of ASCII characters of [s] on its own; as the characters between
    the runs are whole, that gives the same text.) *)
Definition unquote (s : string) : string :=
  utf8_replace (unquote_to_bytes s).

(** ** [str.startswith], [str.replace], [in] *)

(** [s.startswith(p)]. *)
Fixpoint startswith (s p : string) {struct p} : bool :=
  match p with
  | EmptyString => true
  | String a p' =>
      match s with
      | EmptyString => false
      | String b s' => (Ascii.eqb a b && startswith s' p')%bool
      end
  end.

(** [replace_from skip old new s]: the scan of [s] from the left, the
    first [skip] characters being the rest of an occurrence already
    replaced. *)
Fixpoint replace_from (skip : nat) (old new s : string) : string :=
  match s with
  | EmptyString =>
      match skip, old with
      | O, EmptyString => new
      | _, _ => EmptyString
      end
  | String c r =>
      match skip with
      | S k => replace_from k old new r
      | O =>
          if startswith s old then
            match old with
            | EmptyString => new ++ String c (replace_from 0 old new r)
            | String _ _ =>
                new ++ replace_from (String.length old - 1) old new r
            end
          else String c (replace_from 0 old new r)
      end
  end.

(** [s.replace(old, new)]: all non-overlapping occurrences, left to right. *)
Definition replace (old new s : string) : string := replace_from 0 old new s.

(** [old in s]. *)
Fixpoint occurs (old s : string) : bool :=
  match s with
  | EmptyString => startswith s old
  | String _ r => (startswith s old || occurs old r)%bool
  end.

(** ** xml.etree.ElementTree *)

(** An element: its tag, its [text] ([None] when there is none) and its
    children.  Attributes and tails are not read by the engine. *)
Inductive Element : Type :=
| Elem (tag : string) (text : option string) (children : list Element).

(** [root.iter()]: the element itself, then its descendants, in document
    order; each with the two attributes the engine reads. *)
Fixpoint iter (e : Element) : list (string * option string) :=
  match e with
  | Elem tag text children =>
      (tag, text) ::
      (fix iter_all (l : list Element) : list (string * option string) :=
         match l with
         | [] => []
         | c :: r => (iter c ++ iter_all r)%list
         end) children
  end.

(** ** Results, exceptions, ordered dictionaries *)

(** The second component of the pair [send_command] returns: [None], the
    raw bytes, or the [OrderedDict] of decoded fields. *)
Inductive payload : Type :=
| PNone
| PRaw (raw_string : string)
| PFields (params : odict).

Inductive exn : Type :=
| TypeError
| ValueError
| CallbackError.

(** The outcome of a call: a returned value or a raised exception. *)
Inductive result (A : Type) : Type :=
| Ret (a : A)
| Exc (e : exn).
Arguments Ret {A} a.
Arguments Exc {A} e.

(** [d[k]] as a lookup: the value of the first item with key [k]. *)
Fixpoint od_get (k : string) (d : odict) : option pyval :=
  match d with
  | [] => None
  | (k', v) :: r => if String.eqb k' k then Some v else od_get k r
  end.

(** [d[k] = v]: overwrite in place, or append a new item at the end. *)
Fixpoint od_set (k : string) (v : pyval) (d : odict) : odict :=
  match d with
  | [] => [(k, v)]
  | (k', v') :: r =>
      if String.eqb k' k then (k, v) :: r else (k', v') :: od_set k v r
  end.

Definition od_keys (d : odict) : list string := map fst d.

(** ** The camera object *)

Record FoscamCamera : Type := {
  host : string;
  port : Z;
  usr : string;
  pwd : string;
  daemon : bool;
  verbose : bool;
  ssl : bool
}.

(** [FoscamCamera.__init__]; [ssl_enabled] is the module-level flag that
    tells whether [import ssl] succeeded, [ssl0] the [ssl] argument
    ([None] by default). *)
Definition init (ssl_enabled : bool) (host0 : string) (port0 : Z)
    (usr0 pwd0 : string) (daemon0 : bool) (ssl0 : option bool)
    (verbose0 : bool) : FoscamCamera :=
  let ssl1 :=
    if ssl_enabled then
      match ssl0 with
      | None => if port0 =? 443 then Some true else ssl0
      | Some _ => ssl0
      end
    else ssl0 in
  let ssl2 := match ssl1 with None => false | Some b => b end in
  {| host := host0; port := port0; usr := usr0; pwd := pwd0;
     daemon := daemon0; verbose := verbose0; ssl := ssl2 |}.

(** The [url] property. *)
Definition url (cam : FoscamCamera) : string :=
  host cam ++ ":" ++ string_of_Z (port cam).

(** [paramstr] of [send_command] (lines 79-82); an absent or empty
    mapping is falsy. *)
Definition paramstr (params : option odict) : string :=
  match params with
  | Some ((_ :: _) as p) =>
      let s := urlencode p in
      if String.eqb s "" then "" else "&" ++ s
  | _ => ""
  end.

(** [cmdurl] as built on line 83. *)
Definition cmdurl (cam : FoscamCamera) (cmd : string)
    (params : option odict) : string :=
  "http://" ++ url cam ++ "/cgi-bin/CGIProxy.fcgi?usr=" ++ usr cam
  ++ "&pwd=" ++ pwd cam ++ "&cmd=" ++ cmd ++ paramstr params.

(** [cmdurl] after lines 84-85: the URL that is requested. *)
Definition request_url (ssl_enabled : bool) (cam : FoscamCamera)
    (cmd : string) (params : option odict) : string :=
  if (ssl cam && ssl_enabled)%bool
  then replace "http:" "https:" (cmdurl cam cmd params)
  else cmdurl cam cmd params.

(** [scheme://] is how the URL starts. *)
Definition has_scheme (scheme u : string) : bool :=
  startswith u (scheme ++ "://").

(** ** The platform the engine runs on *)

(** What the engine takes from outside the repository.
    - [ssl_enabled]: whether [import ssl] succeeded;
    - [World]: the state of the network and of the camera;
    - [urlopen tls u w]: lines 91-96, the request of [u] (with the
      unverified TLS context when [tls]) and the [read()] of the reply;
      [None] is any exception raised there;
    - [fromstring]: [ET.fromstring], [None] when it raises;
    - [Callback], [call]: the caller's callbacks; a call may change the
      world and may raise;
    - [int_max_str_digits]: the interpreter's limit on the digits of an
      integer text, [sys.get_int_max_str_digits()], 0 for none;
    - [int_non_ascii]: [int(s)] for a [str] that has a character outside
      ASCII, which the interpreter reads with its table of the decimal
      digits and spaces of Unicode; [None] stands for [ValueError]. *)
Class Platform : Type := {
  ssl_enabled : bool;
  World : Type;
  Callback : Type;
  urlopen : bool -> string -> World -> option string * World;
  fromstring : string -> option Element;
  call : Callback -> Z -> payload -> World -> option exn * World;
  int_max_str_digits : nat;
  int_non_ascii : string -> option Z
}.

(** [int(s)] for a [str]: [None] stands for [ValueError]. *)
Definition py_int {P : Platform} (s : string) : option Z :=
  if is_ascii s then int_ascii int_max_str_digits s else int_non_ascii s.

(** The loop of [send_command] over [root.iter()] (lines 106-115):
    [int(child.text)] raises [TypeError] on [None] and [ValueError] on a
    text that is no integer. *)
Fixpoint decode_loop {P : Platform} (nodes : list (string * option string))
    (code : Z) (params : odict) : result (Z * odict) :=
  match nodes with
  | [] => Ret (code, params)
  | (tag, text) :: rest =>
      if String.eqb tag "result" then
        match text with
        | None => Exc TypeError
        | Some t =>
            match py_int t with
            | None => Exc ValueError
            | Some z => decode_loop rest z params
            end
        end
      else if negb (String.eqb tag "CGI_Result") then
        decode_loop rest code
          (od_set tag
             (match text with Some t => VStr (unquote t) | None => VNone end)
             params)
      else decode_loop rest code params
  end.


Section Engine.
Context {P : Platform}.

(** A line printed in verbose mode. *)
Inductive line : Type :=
| SendLine (u : string)
| RawLine (len : nat)
| ExceptionLine (raw_string : string)
| ReceivedLine (code : Z) (params : odict).

(** The arguments of a thread started by [execute_command]. *)
Record Task : Type := {
  t_cmd : string;
  t_params : option odict;
  t_callback : option Callback;
  t_raw : bool
}.

(** What a run can be observed to do: the requests sent (TLS flag and
    URL), the callback calls made, the threads started, the lines
    printed. *)
Record State : Type := {
  world : World;
  requests : list (bool * string);
  delivered : list (Callback * Z * payload);
  threads : list Task;
  stdout : list line
}.

Definition M (A : Type) : Type := State -> result A * State.

Definition ret {A : Type} (a : A) : M A := fun s => (Ret a, s).
Definition raise {A : Type} (e : exn) : M A := fun s => (Exc e, s).
Definition bind {A B : Type} (m : M A) (f : A -> M B) : M B :=
  fun s =>
    match m s with
    | (Ret a, s') => f a s'
    | (Exc e, s') => (Exc e, s')
    end.

Definition print (cam : FoscamCamera) (l : line) : M unit :=
  fun s =>
    (Ret tt,
     if verbose cam then
       {| world := world s; requests := requests s;
          delivered := delivered s; threads := threads s;
          stdout := stdout s ++ [l] |}
     else s).

(** Lines 91-96: one request, logged. *)
Definition fetch (tls : bool) (u : string) : M (option string) :=
  fun s =>
    let (reply, w) := urlopen tls u (world s) in
    (Ret reply,
     {| world := w; requests := requests s ++ [(tls, u)];
        delivered := delivered s; threads := threads s;
        stdout := stdout s |}).

(** [callback(code, params)]. *)
Definition invoke (cb : Callback) (code : Z) (p : payload) : M unit :=
  fun s =>
    let (e, w) := call cb code p (world s) in
    (match e with None => Ret tt | Some x => Exc x end,
     {| world := w; requests := requests s;
        delivered := delivered s ++ [(cb, code, p)]; threads := threads s;
        stdout := stdout s |}).

Definition start_thread (t : Task) : M unit :=
  fun s =>
    (Ret tt,
     {| world := world s; requests := requests s;
        delivered := delivered s; threads := threads s ++ [t];
        stdout := stdout s |}).

(** [FoscamCamera.send_command]. *)
Definition send_command (cam : FoscamCamera) (cmd : string)
    (params : option odict) (raw : bool) : M (Z * payload) :=
  let tls := (ssl cam && ssl_enabled)%bool in
  let u := request_url ssl_enabled cam cmd params in
  bind (print cam (SendLine u)) (fun _ =>
  bind (fetch tls u) (fun reply =>
  match reply with
  | None =>
      bind (print cam (ExceptionLine "")) (fun _ =>
      ret (ERROR_FOSCAM_UNAVAILABLE, PNone))
  | Some raw_string =>
      if raw then
        bind (print cam (RawLine (String.length raw_string))) (fun _ =>
        ret (FOSCAM_SUCCESS, PRaw raw_string))
      else
        match fromstring raw_string with
        | None =>
            bind (print cam (ExceptionLine raw_string)) (fun _ =>
            ret (ERROR_FOSCAM_UNAVAILABLE, PNone))
        | Some root =>
            match decode_loop (iter root) ERROR_FOSCAM_UNKNOWN [] with
            | Exc e => raise e
            | Ret (code, fields) =>
                bind (print cam (ReceivedLine code fields)) (fun _ =>
                ret (code, PFields fields))
            end
        end
  end)).

(** The local function [execute_with_callbacks] of [execute_command]. *)
Definition execute_with_callbacks (cam : FoscamCamera) (cmd : string)
    (params : option odict) (callback : option Callback) (raw : bool)
    : M (Z * payload) :=
  bind (send_command cam cmd params raw) (fun r =>
  match callback with
  | Some cb => bind (invoke cb (fst r) (snd r)) (fun _ => ret r)
  | None => ret r
  end).

(** [FoscamCamera.execute_command]: [None] is Python's [None], what a
    function returns that ends without a [return]. *)
Definition execute_command (cam : FoscamCamera) (cmd : string)
    (params : option odict) (callback : option Callback) (raw : bool)
    : M (option (Z * payload)) :=
  if daemon cam then
    bind (start_thread {| t_cmd := cmd; t_params := params;
                          t_callback := callback; t_raw := raw |})
         (fun _ => ret None)
  else
    bind (execute_with_callbacks cam cmd params callback raw)
         (fun r => ret (Some r)).

(** The body of a started thread: [execute_with_callbacks] on the
    thread's arguments; what it returns or raises is dropped. *)
Definition run_thread (cam : FoscamCamera) (t : Task) (s : State) : State :=
  snd (execute_with_callbacks cam (t_cmd t) (t_params t) (t_callback t)
         (t_raw t) s).

Definition get_motion_detect_config (cam : FoscamCamera)
    (callback : option Callback) : M (option (Z * payload)) :=
  execute_command cam "getMotionDetectConfig" None callback false.

Definition set_motion_detect_config (cam : FoscamCamera) (params : odict)
    (callback : option Callback) : M (option (Z * payload)) :=
  execute_command cam "setMotionDetectConfig" (Some params) callback false.

(** [FoscamCamera.set_motion_detection].  Unpacking [None] (what the get
    returns in daemon mode) raises [TypeError], and so does an item
    assignment on a value that is no mapping. *)
Definition set_motion_detection (cam : FoscamCamera) (enabled : pyval)
    : M Z :=
  bind (get_motion_detect_config cam None) (fun r =>
  match r with
  | None => raise TypeError
  | Some (result, current_config) =>
      if negb (result =? FOSCAM_SUCCESS) then ret result
      else
        match current_config with
        | PFields d =>
            bind (set_motion_detect_config cam
                    (od_set "isEnable" enabled d) None) (fun _ =>
            ret FOSCAM_SUCCESS)
        | _ => raise TypeError
        end
  end).

Definition initial (w : World) : State :=
  {| world := w; requests := []; delivered := []; threads := [];
     stdout := [] |}.

End Engine.

(** ** A platform to run the engine on *)

(** A parser for the documents the camera sends: elements with plain
    names and no attributes, [<t>...</t>] or [<t/>], and ASCII text
    without entity references.  On such a document it builds the tree
    [ET.fromstring] builds; it stands in for [ET.fromstring] where the
    engine is run on concrete replies. *)
Module MiniXML.

Inductive token : Type :=
| TOpen (name : string)
| TClose (name : string)
| TEmpty (name : string)
| TText (s : string).

Definition name_start (c : ascii) : bool :=
  (is_alpha c || Ascii.eqb c "_")%bool.

Definition name_char (c : ascii) : bool :=
  (name_start c || is_digit c || Ascii.eqb c "-" || Ascii.eqb c ".")%bool.

Fixpoint all_chars (f : ascii -> bool) (s : string) : bool :=
  match s with
  | EmptyString => true
  | String c r => (f c && all_chars f r)%bool
  end.

Definition valid_name (s : string) : bool :=
  match s with
  | EmptyString => false
  | String c r => (name_start c && all_chars name_char r)%bool
  end.

Definition text_char (c : ascii) : bool :=
  ((in_range 32 126 c || in_range 9 10 c)
   && negb (Ascii.eqb c "<") && negb (Ascii.eqb c "&"))%bool.

Definition xml_space (c : ascii) : bool :=
  (in_range 9 10 c || Ascii.eqb c " ")%bool.

(** What stands between [<] and [>]. *)
Definition tag_token (body : string) : option token :=
  match body with
  | String "/" n => if valid_name n then Some (TClose n) else None
  | _ =>
      if valid_name body then Some (TOpen body)
      else
        match string_rev body with
        | String "/" m =>
            if valid_name (string_rev m) then Some (TEmpty (string_rev m))
            else None
        | _ => None
        end
  end.

Definition text_token (acc : string) (k : option (list token))
    : option (list token) :=
  match acc with
  | EmptyString => k
  | _ => option_map (cons (TText acc)) k
  end.

Fixpoint tokenize (in_tag : bool) (acc s : string) : option (list token) :=
  match s with
  | EmptyString => if in_tag then None else text_token acc (Some [])
  | String c r =>
      if in_tag then
        if Ascii.eqb c ">" then
          match tag_token acc with
          | Some t => option_map (cons t) (tokenize false "" r)
          | None => None
          end
        else if Ascii.eqb c "<" then None
        else tokenize true (acc ++ String c "") r
      else
        if Ascii.eqb c "<" then text_token acc (tokenize true "" r)
        else if text_char c then tokenize false (acc ++ String c "") r
        else None
  end.

(** An element being read: tag, text, children so far (last first). *)
Definition frame : Type := string * option string * list Element.

Definition attach (e : Element) (stack : list frame) (root : option Element)
    : option (list frame * option Element) :=
  match stack with
  | (tag, text, kids) :: up => Some ((tag, text, e :: kids) :: up, root)
  | [] => match root with None => Some ([], Some e) | Some _ => None end
  end.

Fixpoint build (toks : list token) (stack : list frame)
    (root : option Element) : option Element :=
  match toks with
  | [] => match stack with [] => root | _ :: _ => None end
  | TText s :: rest =>
      match stack with
      | [] => if all_chars xml_space s then build rest [] root else None
      | (tag, None, []) :: up => build rest ((tag, Some s, []) :: up) root
      | _ :: _ => build rest stack root
      end
  | TOpen n :: rest =>
      match stack, root with
      | [], Some _ => None
      | _, _ => build rest ((n, None, []) :: stack) root
      end
  | TEmpty n :: rest =>
      match attach (Elem n None []) stack root with
      | Some (stack', root') => build rest stack' root'
      | None => None
      end
  | TClose n :: rest =>
      match stack with
      | (tag, text, kids) :: up =>
          if String.eqb tag n then
            match attach (Elem tag text (rev kids)) up root with
            | Some (stack', root') => build rest stack' root'
            | None => None
            end
          else None
      | [] => None
      end
  end.

Definition fromstring (s : string) : option Element :=
  match tokenize false "" s with
  | Some toks => build toks [] None
  | None => None
  end.

End MiniXML.

(** ** [int()] on a text with characters outside ASCII *)

(** A lead byte of UTF-8: the bits it gives, the number of bytes that
    follow, and the range of the next one. *)
Definition lead_byte (c : ascii) : option (N * nat * nat * nat) :=
  let n := nat_of_ascii c in
  if in_range 194 223 c then Some (N.of_nat (n - 192), 1, 128, 191)%nat
  else if Nat.eqb n 224 then Some (0%N, 2, 160, 191)%nat
  else if Nat.eqb n 237 then Some (13%N, 2, 128, 159)%nat
  else if in_range 225 239 c then Some (N.of_nat (n - 224), 2, 128, 191)%nat
  else if Nat.eqb n 240 then Some (0%N, 3, 144, 191)%nat
  else if Nat.eqb n 244 then Some (4%N, 3, 128, 143)%nat
  else if in_range 241 243 c then Some (N.of_nat (n - 240), 3, 128, 191)%nat
  else None.

(** The code points of a text; [None] for bytes that are no UTF-8. *)
Fixpoint code_points (pending : option (N * nat * nat * nat)) (s : string)
    : option (list N) :=
  match s with
  | EmptyString =>
      match pending with
      | None => Some []
      | Some _ => None
      end
  | String c r =>
      match pending with
      | None =>
          if Nat.ltb (nat_of_ascii c) 128
          then option_map (cons (N.of_nat (nat_of_ascii c)))
                 (code_points None r)
          else
            match lead_byte c with
            | Some st => code_points (Some st) r
            | None => None
            end
      | Some (v, need, lo, hi) =>
          if in_range lo hi c then
            let v' := (64 * v + N.of_nat (nat_of_ascii c - 128))%N in
            match need with
            | S (S k) => code_points (Some (v', S k, 128, 191)%nat) r
            | _ => option_map (cons v') (code_points None r)
            end
          else None
      end
  end.

(** The spaces of Unicode from U+007F on ([str.isspace]). *)
Definition unicode_spaces : list N :=
  [133; 160; 5760; 8192; 8193; 8194; 8195; 8196; 8197; 8198; 8199; 8200;
   8201; 8202; 8232; 8233; 8239; 8287; 12288]%N.

(** The digits zero of the decimal digits of Unicode 14 from U+007F on;
    the digits one to nine follow each of them. *)
Definition unicode_zeros : list N :=
  [1632; 1776; 1984; 2406; 2534; 2662; 2790; 2918; 3046; 3174; 3302;
   3430; 3558; 3664; 3792; 3872; 4160; 4240; 6112; 6160; 6470; 6608;
   6784; 6800; 6992; 7088; 7232; 7248; 42528; 43216; 43264; 43472; 43504;
   43600; 44016; 65296; 66720; 68912; 69734; 69872; 69942; 70096; 70384;
   70736; 70864; 71248; 71360; 71472; 71904; 72016; 72784; 73040; 73120;
   92768; 92864; 93008; 120782; 120792; 120802; 120812; 120822; 123200;
   123632; 125264; 130032]%N.

Definition unicode_decimal (cp : N) : option N :=
  match find (fun z => (N.leb z cp && N.ltb cp (z + 10))%bool) unicode_zeros
  with
  | Some z => Some (cp - z)%N
  | None => None
  end.

(** The ASCII text [int()] reads in place of a text: a space for each
    space, the ASCII digit for each decimal digit, and the text cut at
    the first other character outside ASCII, with [?] for it. *)
Fixpoint to_ascii_digits (cps : list N) : string :=
  match cps with
  | [] => EmptyString
  | cp :: r =>
      if N.ltb cp 127 then String (ascii_of_N cp) (to_ascii_digits r)
      else if existsb (N.eqb cp) unicode_spaces
      then String " " (to_ascii_digits r)
      else
        match unicode_decimal cp with
        | Some d => String (ascii_of_N (48 + d)) (to_ascii_digits r)
        | None => "?"
        end
  end.

(** [int(s)] of CPython 3.11 (Unicode 14). *)
Definition int_unicode (limit : nat) (s : string) : option Z :=
  match code_points None s with
  | Some cps => int_ascii limit (to_ascii_digits cps)
  | None => None
  end.

(** The platform with a scripted network: the world is the list of the
    replies still to come ([None]: the request fails), a request past
    the end of the script fails; a callback is the exception it raises,
    if any.  Its interpreter is CPython 3.11 with the default limit of
    4300 digits. *)
Definition scripted (ssl_on : bool) : Platform :=
  {| ssl_enabled := ssl_on;
     World := list (option string);
     Callback := option exn;
     urlopen := fun _ _ w =>
       match w with
       | reply :: rest => (reply, rest)
       | [] => (None, [])
       end;
     fromstring := MiniXML.fromstring;
     call := fun cb _ _ w => (cb, w);
     int_max_str_digits := 4300;
     int_non_ascii := int_unicode 4300 |}.

(** The items of the mapping [send_command] is given, none for [None]. *)
Definition items (params : option odict) : odict :=
  match params with
  | Some p => p
  | None => []
  end.

(** What [send_command] returns or raises for a reply ([None]: the
    request failed), as lines 97-119 compute it from the reply alone. *)
Definition outcome_of_reply {P : Platform} (reply : option string)
    (raw : bool) : result (Z * payload) :=
  match reply with
  | None => Ret (ERROR_FOSCAM_UNAVAILABLE, PNone)
  | Some raw_string =>
      if raw then Ret (FOSCAM_SUCCESS, PRaw raw_string)
      else
        match fromstring raw_string with
        | None => Ret (ERROR_FOSCAM_UNAVAILABLE, PNone)
        | Some root =>
            match decode_loop (iter root) ERROR_FOSCAM_UNKNOWN [] with
            | Exc e => Exc e
            | Ret (code, fields) => Ret (code, PFields fields)
            end
        end
  end.

(** The query string the protocol asks for after [cmd=]: one
    [&key=value] per item, in the order of the items. *)
Fixpoint encoded_pairs (p : odict) : string :=
  match p with
  | [] => ""
  | kv :: r => "&" ++ encode_item kv ++ encoded_pairs r
  end.

(** The items of a mapping under the keys other than [k], in order. *)
Definition od_others (k : string) (d : odict) : odict :=
  filter (fun kv => negb (String.eqb (fst kv) k)) d.

(** A camera reached without TLS, in synchronous mode, and the same
    camera in daemon mode. *)
Definition sample_camera : FoscamCamera :=
  init false "cam" 88 "admin" "secret" false None false.

Definition sample_daemon_camera : FoscamCamera :=
  init false "cam" 88 "admin" "secret" true None false.

(** A reply to [getMotionDetectConfig], and an error reply. *)
Definition sample_config_reply : string :=
  "<CGI_Result><result>0</result><isEnable>0</isEnable><linkage>3</linkage></CGI_Result>".

Definition sample_denied_reply : string :=
  "<CGI_Result><result>-3</result></CGI_Result>".

(** ** The callers of the engine *)

(** What a caller that indexes a mapping returns or raises: the
    exceptions of the engine, and [KeyError] for a missing key. *)
Inductive outcome (A : Type) : Type :=
| Returned (a : A)
| Raised (e : exn)
| RaisedKeyError (key : string).
Arguments Returned {A} a.
Arguments Raised {A} e.
Arguments RaisedKeyError {A} key.

(** The NTP servers [set_system_time] accepts. *)
Definition ntp_servers : list string :=
  ["time.nist.gov"; "time.kriss.re.kr"; "time.windows.com";
   "time.nuri.net"; "Auto"].

(** [v in ntp_servers]: only a [str] equals a [str]. *)
Definition in_ntp_servers (v : pyval) : bool :=
  match v with
  | VStr s => existsb (String.eqb s) ntp_servers
  | _ => false
  end.

Section Callers.
Context {P : Platform}.

Definition get_motion_detect_config1 (cam : FoscamCamera)
    (callback : option Callback) : M (option (Z * payload)) :=
  execute_command cam "getMotionDetectConfig1" None callback false.

Definition set_motion_detect_config1 (cam : FoscamCamera) (params : odict)
    (callback : option Callback) : M (option (Z * payload)) :=
  execute_command cam "setMotionDetectConfig1" (Some params) callback false.

(** [FoscamCamera.set_motion_detection1]: the function ends without a
    [return] after the set command, so it returns [None] there. *)
Definition set_motion_detection1 (cam : FoscamCamera) (enabled : pyval)
    : M (option Z) :=
  bind (get_motion_detect_config1 cam None) (fun r =>
  match r with
  | None => raise TypeError
  | Some (result, current_config) =>
      if negb (result =? FOSCAM_SUCCESS) then ret (Some result)
      else
        match current_config with
        | PFields d =>
            bind (set_motion_detect_config1 cam
                    (od_set "isEnable" enabled d) None) (fun _ =>
            ret None)
        | _ => raise TypeError
        end
  end).

(** [FoscamCamera.is_asleep]: [int(data["state"]) == 1] is evaluated
    only when [ret == 0]. *)
Definition is_asleep (cam : FoscamCamera) (callback : option Callback)
    (s : State) : outcome (Z * bool) * State :=
  match execute_command cam "getAlexaState" None callback false s with
  | (Exc e, s') => (Raised e, s')
  | (Ret None, s') => (Raised TypeError, s')
  | (Ret (Some (r, data)), s') =>
      if r =? 0 then
        match data with
        | PFields d =>
            match od_get "state" d with
            | None => (RaisedKeyError "state", s')
            | Some VNone => (Raised TypeError, s')
            | Some (VStr t) =>
                match py_int t with
                | None => (Raised ValueError, s')
                | Some z => (Returned (r, z =? 1), s')
                end
            | Some (VInt z) => (Returned (r, z =? 1), s')
            end
        | _ => (Raised TypeError, s')
        end
      else (Returned (r, false), s')
  end.

(** [FoscamCamera.set_system_time]. *)
Definition set_system_time (cam : FoscamCamera)
    (time_source ntp_server date_format time_format time_zone is_dst dst
     year mon day hour minute sec : pyval) (callback : option Callback)
    : M (option (Z * payload)) :=
  if negb (in_ntp_servers ntp_server) then raise ValueError
  else
    execute_command cam "setSystemTime"
      (Some [("timeSource", time_source); ("ntpServer", ntp_server);
             ("dateFormat", date_format); ("timeFormat", time_format);
             ("timeZone", time_zone); ("isDst", is_dst); ("dst", dst);
             ("year", year); ("mon", mon); ("day", day); ("hour", hour);
             ("minute", minute); ("sec", sec)])
      callback false.

(** [FoscamCamera.snap_picture_2]: the parameters are the empty dict. *)
Definition snap_picture_2 (cam : FoscamCamera) (callback : option Callback)
    : M (option (Z * payload)) :=
  execute_command cam "snapPicture2" (Some []) callback true.

End Callers.

(** ** Notions the properties are stated with *)

(** A tag the loop of [send_command] stores as a field. *)
Definition is_field_tag (tag : string) : bool :=
  (negb (String.eqb tag "result") && negb (String.eqb tag "CGI_Result"))%bool.

(** The value stored for an element's text (lines 113-115). *)
Definition field_value (text : option string) : pyval :=
  match text with
  | Some t => VStr (unquote t)
  | None => VNone
  end.

(** The fields the loop of [send_command] stores for the elements
    [nodes], starting from [params]: the loop without the code. *)
Fixpoint store_fields (nodes : list (string * option string))
    (params : odict) : odict :=
  match nodes with
  | [] => params
  | (tag, text) :: rest =>
      if is_field_tag tag
      then store_fields rest (od_set tag (field_value text) params)
      else store_fields rest params
  end.

(** The keys of a mapping after an assignment to [k]. *)
Definition add_key (l : list string) (k : string) : list string :=
  if existsb (String.eqb k) l then l else (l ++ [k])%list.

(** How often the character [c] occurs in [s]. *)
Fixpoint count_char (c : ascii) (s : string) : nat :=
  match s with
  | EmptyString => O
  | String x r => ((if Ascii.eqb x c then 1 else 0) + count_char c r)%nat
  end.

(** [s] with [+] for every space. *)
Fixpoint plus_for_space (s : string) : string :=
  match s with
  | EmptyString => EmptyString
  | String c r =>
      String (if Ascii.eqb c " " then "+"%char else c) (plus_for_space r)
  end.

(** What the proof that [utf8_run] leaves [+] and space alone keeps
    of a decoder state: no space was seen, and none can continue. *)
Definition no_space_state (st : utf8_state) : Prop :=
  match st with
  | Utf8Start => True
  | Utf8Pending seen _ lo _ =>
      plus_for_space seen = seen /\ Nat.leb 128 lo = true
  end.

(** The characters [quote_plus] produces. *)
Definition quoted_char (c : ascii) : bool :=
  (always_safe c || Ascii.eqb c "+" || Ascii.eqb c "%")%bool.

(** The camera [cam] in synchronous mode. *)
Definition synchronous (cam : FoscamCamera) : FoscamCamera :=
  {| host := host cam; port := port cam; usr := usr cam; pwd := pwd cam;
     daemon := false; verbose := verbose cam; ssl := ssl cam |}.

(** * Properties *)

(** ** Strings *)

Lemma append_empty_r (s : string) : s ++ "" = s.
Proof. induction s as [|c r IH]; simpl; [reflexivity | now rewrite IH]. Qed.

Lemma append_assoc (a b c : string) : (a ++ b) ++ c = a ++ b ++ c.
Proof. induction a as [|x r IH]; simpl; [reflexivity | now rewrite IH]. Qed.

Lemma occurs_false_startswith (old s : string) :
  occurs old s = false -> startswith s old = false.
Proof.
  destruct s as [|c r]; simpl; intro H; [exact H |].
  now apply orb_false_iff in H.
Qed.

(** A string without an occurrence of [old] is left alone by [replace]. *)
Lemma replace_from_no_occurrence (old new s : string) :
  occurs old s = false -> replace_from 0 old new s = s.
Proof.
  induction s as [|c r IH]; intro H.
  - simpl in *. destruct old; [discriminate | reflexivity].
  - pose proof (occurs_false_startswith _ _ H) as Hp.
    simpl in H. apply orb_false_iff in H. destruct H as [_ Hr].
    change (replace_from 0 old new (String c r))
      with (if startswith (String c r) old
            then match old with
                 | EmptyString => new ++ String c (replace_from 0 old new r)
                 | String _ _ =>
                     new ++ replace_from (String.length old - 1) old new r
                 end
            else String c (replace_from 0 old new r)).
    rewrite Hp, (IH Hr). reflexivity.
Qed.

(** The rewrite of line 85 on a URL that starts with [http:]. *)
Lemma replace_http_head (rest : string) :
  replace "http:" "https:" ("http:" ++ rest)
  = "https:" ++ replace "http:" "https:" rest.
Proof. reflexivity. Qed.

(** ** Request builder *)

Lemma join_nonempty (x : string * pyval) (r : odict) :
  String.eqb (urlencode (x :: r)) "" = false.
Proof.
  unfold urlencode, encode_item.
  assert (H : forall a b : string, String.eqb (a ++ "=" ++ b) "" = false)
    by (intros a b; destruct a; reflexivity).
  destruct r as [|y r']; simpl.
  - apply H.
  - rewrite append_assoc. apply H.
Qed.

Lemma urlencode_encoded_pairs (x : string * pyval) (r : odict) :
  "&" ++ urlencode (x :: r) = encoded_pairs (x :: r).
Proof.
  unfold urlencode. revert x.
  induction r as [|y r' IH]; intro x.
  - simpl. now rewrite append_empty_r.
  - change (map encode_item (x :: y :: r'))
      with (encode_item x :: map encode_item (y :: r')).
    change (join "&" (encode_item x :: map encode_item (y :: r')))
      with (encode_item x ++ "&" ++ join "&" (map encode_item (y :: r'))).
    rewrite (IH y). reflexivity.
Qed.

(** [paramstr] is the run of encoded pairs; nothing for no parameters. *)
Lemma paramstr_encoded_pairs (params : option odict) :
  paramstr params = encoded_pairs (items params).
Proof.
  destruct params as [[|x r]|]; try reflexivity.
  unfold paramstr, items. rewrite join_nonempty.
  apply urlencode_encoded_pairs.
Qed.

(** The URL of line 83, written out. *)
Lemma cmdurl_shape (cam : FoscamCamera) (cmd : string)
    (params : option odict) :
  cmdurl cam cmd params
  = "http://" ++ host cam ++ ":" ++ string_of_Z (port cam)
    ++ "/cgi-bin/CGIProxy.fcgi?usr=" ++ usr cam ++ "&pwd=" ++ pwd cam
    ++ "&cmd=" ++ cmd ++ encoded_pairs (items params).
Proof.
  unfold cmdurl, url. rewrite paramstr_encoded_pairs.
  now rewrite !append_assoc.
Qed.

Lemma request_url_plain (ssl_on : bool) (cam : FoscamCamera) (cmd : string)
    (params : option odict) :
  (ssl cam && ssl_on)%bool = false ->
  request_url ssl_on cam cmd params = cmdurl cam cmd params.
Proof. unfold request_url. now intros ->. Qed.

Lemma request_url_tls (ssl_on : bool) (cam : FoscamCamera) (cmd : string)
    (params : option odict) :
  (ssl cam && ssl_on)%bool = true ->
  request_url ssl_on cam cmd params
  = "https://" ++
    replace "http:" "https:"
      (url cam ++ "/cgi-bin/CGIProxy.fcgi?usr=" ++ usr cam
       ++ "&pwd=" ++ pwd cam ++ "&cmd=" ++ cmd ++ paramstr params).
Proof. unfold request_url. intros ->. reflexivity. Qed.

(** C5 (as amended): without an explicit [ssl] argument the camera uses
    TLS exactly when the port is 443 and the [ssl] module could be
    imported; an explicit [ssl] argument is kept as given. *)
Theorem init_ssl_default (ssl_on : bool) (h : string) (p : Z)
    (u w : string) (d v : bool) :
  ssl (init ssl_on h p u w d None v) = (ssl_on && (p =? 443))%bool
  /\ forall b : bool, ssl (init ssl_on h p u w d (Some b) v) = b.
Proof.
  split.
  - unfold init. destruct ssl_on; simpl; [| reflexivity].
    now destruct (p =? 443).
  - intro b. unfold init. now destruct ssl_on.
Qed.

(** C5, the claim as stated fails: where [import ssl] failed, a camera
    on port 443 built without an [ssl] argument does not use TLS. *)
Lemma init_port_443_without_ssl_module :
  ssl (init false "cam" 443 "admin" "secret" false None false) = false.
Proof. reflexivity. Qed.

(** C4 (as amended): the requested URL has scheme [https] exactly when
    the camera uses TLS and the [ssl] module could be imported, and
    scheme [http] otherwise; without the rewrite it is the URL of line
    83, and the rewrite puts [https:] for the leading [http:] and leaves
    the rest, in which [http:] does not occur, as it is. *)
Theorem request_url_scheme (ssl_on : bool) (cam : FoscamCamera)
    (cmd : string) (params : option odict) :
  has_scheme "https" (request_url ssl_on cam cmd params)
    = (ssl cam && ssl_on)%bool
  /\ has_scheme "http" (request_url ssl_on cam cmd params)
    = negb (ssl cam && ssl_on)
  /\ ((ssl cam && ssl_on)%bool = false ->
      request_url ssl_on cam cmd params = cmdurl cam cmd params)
  /\ (forall rest : string,
        (ssl cam && ssl_on)%bool = true ->
        cmdurl cam cmd params = "http:" ++ rest ->
        occurs "http:" rest = false ->
        request_url ssl_on cam cmd params = "https:" ++ rest).
Proof.
  destruct (ssl cam && ssl_on)%bool eqn:E.
  - rewrite (request_url_tls _ _ _ _ E).
    repeat split; try reflexivity; try discriminate.
    intros rest _ Hrest Hocc.
    rewrite <- (replace_from_no_occurrence "http:" "https:" rest Hocc).
    injection Hrest as Hrest. rewrite <- Hrest. reflexivity.
  - rewrite (request_url_plain _ _ _ _ E).
    repeat split; try reflexivity; discriminate.
Qed.

(** The rewrite on a camera on port 443 whose URL has no other [http:]. *)
Lemma request_url_scheme_witness :
  request_url true (init true "cam" 443 "admin" "secret" false None false)
    "getIPInfo" None
  = "https:" ++ "//cam:443/cgi-bin/CGIProxy.fcgi?usr=admin&pwd=secret&cmd=getIPInfo".
Proof.
  apply (request_url_scheme true
           (init true "cam" 443 "admin" "secret" false None false)
           "getIPInfo" None); reflexivity.
Defined.

(** C4, the claim as stated fails: a camera told to use TLS, where
    [import ssl] failed, is still addressed with scheme [http]. *)
Lemma tls_without_ssl_module_keeps_http :
  let cam := init false "cam" 443 "admin" "secret" false (Some true) false in
  ssl cam = true
  /\ has_scheme "https" (request_url false cam "getIPInfo" None) = false
  /\ has_scheme "http" (request_url false cam "getIPInfo" None) = true.
Proof. repeat split. Qed.

(** C6, the code at a failing input: with TLS, line 85 rewrites every
    [http:] of the URL, here the one that the host name and the colon
    before the port make up, so the URL names another host. *)
Theorem https_rewrite_changes_host :
  let cam := init true "cam-http" 443 "admin" "secret" false None false in
  cmdurl cam "getIPInfo" None
  = "http://cam-http:443/cgi-bin/CGIProxy.fcgi?usr=admin&pwd=secret&cmd=getIPInfo"
  /\ request_url true cam "getIPInfo" None
  = "https://cam-https:443/cgi-bin/CGIProxy.fcgi?usr=admin&pwd=secret&cmd=getIPInfo".
Proof. split; reflexivity. Qed.

(** ** The engine *)

Section EngineProperties.
Context {P : Platform}.

Ltac run :=
  unfold execute_command, execute_with_callbacks, send_command,
    start_thread, invoke, fetch, print, bind, ret, raise; simpl.

(** [send_command] sends exactly one request, starts no thread and calls
    no callback; its outcome is a function of the reply. *)
Lemma send_command_spec (cam : FoscamCamera) (cmd : string)
    (params : option odict) (raw : bool) (s : State) :
  let tls := (ssl cam && ssl_enabled)%bool in
  let u := request_url ssl_enabled cam cmd params in
  let s' := snd (send_command cam cmd params raw s) in
  fst (send_command cam cmd params raw s)
    = outcome_of_reply (fst (urlopen tls u (world s))) raw
  /\ world s' = snd (urlopen tls u (world s))
  /\ requests s' = (requests s ++ [(tls, u)])%list
  /\ delivered s' = delivered s
  /\ threads s' = threads s.
Proof.
  run. unfold outcome_of_reply.
  destruct (verbose cam); simpl;
    destruct (urlopen _ _ (world s)) as [[b|] w]; simpl;
    try (repeat split; fail);
    (destruct raw; simpl; [repeat split |]);
    (destruct (fromstring b) as [root|]; simpl; [| repeat split]);
    destruct (decode_loop _ _ _) as [[c f]|e]; simpl; repeat split.
Qed.

Lemma send_command_outcome (cam : FoscamCamera) (cmd : string)
    (params : option odict) (raw : bool) (s : State) :
  fst (send_command cam cmd params raw s)
  = outcome_of_reply
      (fst (urlopen (ssl cam && ssl_enabled)
              (request_url ssl_enabled cam cmd params) (world s))) raw.
Proof. apply send_command_spec. Qed.

Lemma send_command_requests (cam : FoscamCamera) (cmd : string)
    (params : option odict) (raw : bool) (s : State) :
  requests (snd (send_command cam cmd params raw s))
  = (requests s
     ++ [((ssl cam && ssl_enabled)%bool,
          request_url ssl_enabled cam cmd params)])%list.
Proof. apply send_command_spec. Qed.

(** X21: a request that fails gives [Unavailable] and no payload, in
    raw mode as well; nothing is raised. *)
Lemma transport_failure_unavailable (cam : FoscamCamera) (cmd : string)
    (params : option odict) (raw : bool) (s : State) :
  fst (urlopen (ssl cam && ssl_enabled)
         (request_url ssl_enabled cam cmd params) (world s)) = None ->
  fst (send_command cam cmd params raw s)
  = Ret (ERROR_FOSCAM_UNAVAILABLE, PNone).
Proof. intro H. rewrite send_command_outcome, H. reflexivity. Qed.

(** X22: a reply the XML parser rejects gives [Unavailable] and no
    fields; nothing is raised. *)
Lemma parse_failure_unavailable (cam : FoscamCamera) (cmd : string)
    (params : option odict) (s : State) (raw_string : string) :
  fst (urlopen (ssl cam && ssl_enabled)
         (request_url ssl_enabled cam cmd params) (world s))
    = Some raw_string ->
  fromstring raw_string = None ->
  fst (send_command cam cmd params false s)
  = Ret (ERROR_FOSCAM_UNAVAILABLE, PNone).
Proof.
  intros H Hp. rewrite send_command_outcome, H. simpl. now rewrite Hp.
Qed.

(** Fields are returned only for a reply that was received and parsed,
    and then they are the whole result of the loop over its elements. *)
Lemma fields_only_from_parsed_reply (cam : FoscamCamera) (cmd : string)
    (params : option odict) (raw : bool) (s : State) (code : Z)
    (fields : odict) :
  fst (send_command cam cmd params raw s) = Ret (code, PFields fields) ->
  raw = false
  /\ exists raw_string root,
      fst (urlopen (ssl cam && ssl_enabled)
             (request_url ssl_enabled cam cmd params) (world s))
        = Some raw_string
      /\ fromstring raw_string = Some root
      /\ decode_loop (iter root) ERROR_FOSCAM_UNKNOWN []
         = Ret (code, fields).
Proof.
  rewrite send_command_outcome. unfold outcome_of_reply.
  destruct (fst (urlopen _ _ _)) as [b|]; [| discriminate].
  destruct raw; [discriminate |].
  destruct (fromstring b) as [root|] eqn:Hp; [| discriminate].
  destruct (decode_loop _ _ _) as [[c f]|e] eqn:Hd; [| discriminate].
  intro H. injection H as -> ->. split; [reflexivity |].
  exists b, root. auto.
Qed.

(** ** Ordered dictionaries *)

Lemma od_get_set_same (k : string) (v : pyval) (d : odict) :
  od_get k (od_set k v d) = Some v.
Proof.
  induction d as [|[a b] r IH]; simpl.
  - now rewrite String.eqb_refl.
  - destruct (String.eqb a k) eqn:E; simpl.
    + now rewrite String.eqb_refl.
    + now rewrite E.
Qed.

Lemma od_get_set_other (k k' : string) (v : pyval) (d : odict) :
  k' <> k -> od_get k' (od_set k v d) = od_get k' d.
Proof.
  intro Hne.
  assert (Hk : String.eqb k k' = false)
    by (apply String.eqb_neq; congruence).
  induction d as [|[a b] r IH]; simpl.
  - now rewrite Hk.
  - destruct (String.eqb a k) eqn:E; simpl.
    + apply String.eqb_eq in E. subst a. now rewrite Hk.
    + now rewrite IH.
Qed.

Lemma od_others_set (k : string) (v : pyval) (d : odict) :
  od_others k (od_set k v d) = od_others k d.
Proof.
  unfold od_others.
  induction d as [|[a b] r IH]; simpl.
  - now rewrite String.eqb_refl.
  - destruct (String.eqb a k) eqn:E; simpl.
    + now rewrite String.eqb_refl.
    + now rewrite E, IH.
Qed.

Lemma od_keys_set (k k' : string) (v : pyval) (d : odict) :
  In k' (od_keys (od_set k v d)) <-> In k' (od_keys d) \/ k' = k.
Proof.
  unfold od_keys.
  induction d as [|[a b] r IH]; simpl.
  - intuition congruence.
  - destruct (String.eqb a k) eqn:E; simpl.
    + apply String.eqb_eq in E. subst a. intuition congruence.
    + rewrite IH. intuition congruence.
Qed.

(** ** Response decoder *)

(** The loop adds no key [result] and no key [CGI_Result]. *)
Lemma decode_loop_keys (nodes : list (string * option string)) :
  forall (code : Z) (params : odict) (code' : Z) (params' : odict),
    decode_loop nodes code params = Ret (code', params') ->
    forall k : string,
      In k (od_keys params') ->
      In k (od_keys params) \/ (k <> "result" /\ k <> "CGI_Result").
Proof.
  induction nodes as [|[tag text] rest IH]; intros code params code' params'.
  - simpl. intro H. injection H as _ <-. auto.
  - simpl. destruct (String.eqb tag "result") eqn:Er.
    + destruct text as [t|]; [| discriminate].
      destruct (py_int t) as [z|]; [| discriminate].
      apply IH.
    + destruct (String.eqb tag "CGI_Result") eqn:Ec; simpl.
      * apply IH.
      * intros H k Hk.
        destruct (IH _ _ _ _ H k Hk) as [Hin|Hne]; [| now right].
        apply od_keys_set in Hin. destruct Hin as [Hin| ->]; [now left |].
        right. split; apply String.eqb_neq; assumption.
Qed.

(** A key the mapping has when the loop begins stays. *)
Lemma decode_loop_keeps_keys (nodes : list (string * option string)) :
  forall (code : Z) (params : odict) (code' : Z) (params' : odict),
    decode_loop nodes code params = Ret (code', params') ->
    forall k : string, In k (od_keys params) -> In k (od_keys params').
Proof.
  induction nodes as [|[tag text] rest IH]; intros code params code' params'.
  - simpl. intro H. now injection H as _ <-.
  - simpl. destruct (String.eqb tag "result").
    + destruct text as [t|]; [| discriminate].
      destruct (py_int t) as [z|]; [| discriminate].
      apply IH.
    + destruct (negb (String.eqb tag "CGI_Result")).
      * intros H k Hk. apply (IH _ _ _ _ H). apply od_keys_set. now left.
      * apply IH.
Qed.

(** C8: in raw mode a reply that was received is returned as it is,
    with code [Success]; the XML parser has no part in it, whatever the
    bytes and on every platform. *)
Theorem raw_mode_returns_reply (cam : FoscamCamera) (cmd : string)
    (params : option odict) (s : State) (raw_string : string) :
  fst (urlopen (ssl cam && ssl_enabled)
         (request_url ssl_enabled cam cmd params) (world s))
    = Some raw_string ->
  fst (send_command cam cmd params true s)
    = Ret (FOSCAM_SUCCESS, PRaw raw_string)
  /\ forall Q : Platform,
      @outcome_of_reply Q (Some raw_string) true
      = Ret (FOSCAM_SUCCESS, PRaw raw_string).
Proof.
  intro H. split.
  - rewrite send_command_outcome, H. reflexivity.
  - reflexivity.
Qed.

(** ** Dispatcher *)

Lemma execute_command_daemon (cam : FoscamCamera) (cmd : string)
    (params : option odict) (callback : option Callback) (raw : bool)
    (s : State) :
  daemon cam = true ->
  execute_command cam cmd params callback raw s
  = (Ret None,
     {| world := world s; requests := requests s;
        delivered := delivered s;
        threads := (threads s
                    ++ [{| t_cmd := cmd; t_params := params;
                           t_callback := callback; t_raw := raw |}])%list;
        stdout := stdout s |}).
Proof. unfold execute_command. intros ->. reflexivity. Qed.

Lemma execute_command_sync_no_callback (cam : FoscamCamera) (cmd : string)
    (params : option odict) (raw : bool) (s : State) :
  daemon cam = false ->
  execute_command cam cmd params None raw s
  = (match fst (send_command cam cmd params raw s) with
     | Ret r => Ret (Some r)
     | Exc e => Exc e
     end,
     snd (send_command cam cmd params raw s)).
Proof.
  unfold execute_command, execute_with_callbacks, bind, ret. intros ->.
  destruct (send_command cam cmd params raw s) as [[r|e] s']; reflexivity.
Qed.

(** A value returned by a command sent without [raw]: [Unavailable]
    without fields, or a code with the mapping of the fields. *)
Lemma send_command_parsed_payload (cam : FoscamCamera) (cmd : string)
    (params : option odict) (s : State) (code : Z) (p : payload) :
  fst (send_command cam cmd params false s) = Ret (code, p) ->
  (code = ERROR_FOSCAM_UNAVAILABLE /\ p = PNone)
  \/ exists d : odict, p = PFields d.
Proof.
  rewrite send_command_outcome. unfold outcome_of_reply.
  destruct (fst (urlopen _ _ _)) as [b|].
  - destruct (fromstring b) as [root|].
    + destruct (decode_loop _ _ _) as [[c f]|e]; [| discriminate].
      intro H. injection H as _ <-. right. now exists f.
    + intro H. injection H as <- <-. now left.
  - intro H. injection H as <- <-. now left.
Qed.

(** A get phase that returns a pair ran in synchronous mode, and the
    pair is the one [send_command] returned. *)
Lemma get_phase_returned (cam : FoscamCamera) (s s1 : State) (code : Z)
    (p : payload) :
  get_motion_detect_config cam None s = (Ret (Some (code, p)), s1) ->
  daemon cam = false
  /\ fst (send_command cam "getMotionDetectConfig" None false s)
     = Ret (code, p)
  /\ s1 = snd (send_command cam "getMotionDetectConfig" None false s).
Proof.
  unfold get_motion_detect_config.
  destruct (daemon cam) eqn:D.
  - rewrite execute_command_daemon by assumption. discriminate.
  - rewrite execute_command_sync_no_callback by assumption.
    destruct (fst (send_command _ _ _ _ s)) as [r|e]; [| discriminate].
    intro H. injection H as -> <-. auto.
Qed.

Lemma set_phase_sync (cam : FoscamCamera) (d : odict) (s : State) :
  daemon cam = false ->
  bind (set_motion_detect_config cam d None) (fun _ => ret FOSCAM_SUCCESS) s
  = (match fst (send_command cam "setMotionDetectConfig" (Some d) false s)
     with
     | Ret _ => Ret FOSCAM_SUCCESS
     | Exc e => Exc e
     end,
     snd (send_command cam "setMotionDetectConfig" (Some d) false s)).
Proof.
  intro D. unfold bind at 1, set_motion_detect_config.
  rewrite execute_command_sync_no_callback by assumption.
  destruct (send_command _ _ _ _ s) as [[r|e] s']; reflexivity.
Qed.

(** After a get phase that returned [Success] with the fields [d], the
    operation is the set command on [d] with [isEnable] assigned. *)
Lemma set_motion_detection_set_phase (cam : FoscamCamera) (enabled : pyval)
    (s s1 : State) (d : odict) :
  get_motion_detect_config cam None s
    = (Ret (Some (FOSCAM_SUCCESS, PFields d)), s1) ->
  set_motion_detection cam enabled s
  = bind (set_motion_detect_config cam (od_set "isEnable" enabled d) None)
         (fun _ => ret FOSCAM_SUCCESS) s1.
Proof.
  intro H. unfold set_motion_detection. unfold bind at 1.
  rewrite H. reflexivity.
Qed.

(** ** Read-modify-write: [set_motion_detection] *)

(** C7: when the get phase returns a code other than [Success], the
    operation returns that code and ends in the state the get phase
    left: one request was sent, the one of the get command, and nothing
    was done after it. *)
Theorem set_motion_detection_get_failure (cam : FoscamCamera)
    (enabled : pyval) (s s1 : State) (code : Z) (p : payload) :
  get_motion_detect_config cam None s = (Ret (Some (code, p)), s1) ->
  code <> FOSCAM_SUCCESS ->
  set_motion_detection cam enabled s = (Ret code, s1)
  /\ requests s1
     = (requests s
        ++ [((ssl cam && ssl_enabled)%bool,
             request_url ssl_enabled cam "getMotionDetectConfig" None)])%list
  /\ threads s1 = threads s
  /\ delivered s1 = delivered s.
Proof.
  intros H Hc.
  destruct (get_phase_returned _ _ _ _ _ H) as (_ & _ & Hs1).
  split.
  - unfold set_motion_detection, bind. rewrite H.
    apply Z.eqb_neq in Hc. rewrite Hc. reflexivity.
  - subst s1.
    destruct (send_command_spec cam "getMotionDetectConfig" None false s)
      as (_ & _ & Hr & Hd & Ht).
    auto.
Qed.

(** C2 (as amended): when the get phase returns [Success], the camera is
    in synchronous mode, the fields came as a mapping, and the operation
    sends the set command on that mapping with [isEnable] assigned; if
    the set command returns, whatever its code, the operation returns
    [Success], and if it raises, so does the operation.  Two requests
    were sent: the get command, then the set command. *)
Theorem set_motion_detection_after_successful_get (cam : FoscamCamera)
    (enabled : pyval) (s s1 : State) (p : payload) :
  get_motion_detect_config cam None s
    = (Ret (Some (FOSCAM_SUCCESS, p)), s1) ->
  daemon cam = false
  /\ exists d : odict,
      p = PFields d
      /\ let d' := od_set "isEnable" enabled d in
         let set := send_command cam "setMotionDetectConfig" (Some d')
                      false s1 in
         let tls := (ssl cam && ssl_enabled)%bool in
         set_motion_detection cam enabled s
         = (match fst set with
            | Ret _ => Ret FOSCAM_SUCCESS
            | Exc e => Exc e
            end, snd set)
         /\ requests (snd set)
            = (requests s
               ++ [(tls, request_url ssl_enabled cam
                           "getMotionDetectConfig" None);
                   (tls, request_url ssl_enabled cam
                           "setMotionDetectConfig" (Some d'))])%list.
Proof.
  intro H.
  destruct (get_phase_returned _ _ _ _ _ H) as (D & Hget & Hs1).
  split; [exact D |].
  destruct (send_command_parsed_payload _ _ _ _ _ _ Hget)
    as [[Hc _]|[d ->]]; [discriminate |].
  exists d. split; [reflexivity |]. cbv zeta. split.
  - rewrite (set_motion_detection_set_phase _ _ _ _ _ H).
    now apply set_phase_sync.
  - rewrite send_command_requests. subst s1.
    rewrite send_command_requests, <- app_assoc. reflexivity.
Qed.

(** C9: after a get phase that returned [Success] with the mapping [d],
    the mapping given to the set command is [d] with [isEnable]
    assigned: the request of the set command carries it, every other
    key has the value it had, the items under the other keys are the
    same in the same order, and no key but [isEnable] is new. *)
Theorem set_motion_detection_frame (cam : FoscamCamera) (enabled : pyval)
    (s s1 : State) (d : odict) :
  get_motion_detect_config cam None s
    = (Ret (Some (FOSCAM_SUCCESS, PFields d)), s1) ->
  let d' := od_set "isEnable" enabled d in
  set_motion_detection cam enabled s
  = bind (set_motion_detect_config cam d' None)
         (fun _ => ret FOSCAM_SUCCESS) s1
  /\ requests (snd (set_motion_detection cam enabled s))
     = (requests s1
        ++ [((ssl cam && ssl_enabled)%bool,
             request_url ssl_enabled cam "setMotionDetectConfig"
               (Some d'))])%list
  /\ (forall k : string, k <> "isEnable" -> od_get k d' = od_get k d)
  /\ od_get "isEnable" d' = Some enabled
  /\ od_others "isEnable" d' = od_others "isEnable" d
  /\ (forall k : string,
        In k (od_keys d') <-> In k (od_keys d) \/ k = "isEnable").
Proof.
  intros H d'.
  destruct (get_phase_returned _ _ _ _ _ H) as (D & _ & _).
  pose proof (set_motion_detection_set_phase cam enabled s s1 d H) as Hset.
  fold d' in Hset.
  repeat split.
  - exact Hset.
  - rewrite Hset, set_phase_sync by assumption. simpl.
    apply send_command_requests.
  - intros k Hk. now apply od_get_set_other.
  - apply od_get_set_same.
  - apply od_others_set.
  - now apply od_keys_set.
  - now apply od_keys_set.
Qed.

(** ** Synchronous and daemon mode *)

(** C10: in daemon mode [execute_command] returns [None] for every
    command: it starts a thread and sends nothing itself, and the thread
    hands the pair of [send_command] to the callback, if there is one.
    In synchronous mode it returns the pair [send_command] returned,
    once the callback, if there is one, has been called with that pair
    and has returned; without a callback its outcome is that of
    [send_command]. *)
Theorem execute_command_return_value (cam : FoscamCamera) (cmd : string)
    (params : option odict) (callback : option Callback) (raw : bool)
    (s : State) :
  let task := {| t_cmd := cmd; t_params := params;
                 t_callback := callback; t_raw := raw |} in
  (daemon cam = true ->
     fst (execute_command cam cmd params callback raw s) = Ret None
     /\ requests (snd (execute_command cam cmd params callback raw s))
        = requests s
     /\ delivered (snd (execute_command cam cmd params callback raw s))
        = delivered s
     /\ threads (snd (execute_command cam cmd params callback raw s))
        = (threads s ++ [task])%list
     /\ forall (s0 : State) (r : Z * payload) (cb : Callback),
          fst (send_command cam cmd params raw s0) = Ret r ->
          callback = Some cb ->
          delivered (run_thread cam task s0)
          = (delivered s0 ++ [(cb, fst r, snd r)])%list)
  /\ (daemon cam = false ->
      (callback = None ->
         execute_command cam cmd params callback raw s
         = (match fst (send_command cam cmd params raw s) with
            | Ret r => Ret (Some r)
            | Exc e => Exc e
            end, snd (send_command cam cmd params raw s)))
      /\ forall r : Z * payload,
          fst (send_command cam cmd params raw s) = Ret r ->
          (forall cb : Callback,
             callback = Some cb ->
             fst (call cb (fst r) (snd r)
                    (world (snd (send_command cam cmd params raw s))))
             = None) ->
          fst (execute_command cam cmd params callback raw s)
          = Ret (Some r)
          /\ forall cb : Callback,
              callback = Some cb ->
              delivered
                (snd (execute_command cam cmd params callback raw s))
              = (delivered s ++ [(cb, fst r, snd r)])%list).
Proof.
  intro task. split; intro D.
  - rewrite (execute_command_daemon _ _ _ _ _ _ D). simpl.
    repeat split.
    intros s0 r cb Hr ->. unfold run_thread, task. simpl.
    unfold execute_with_callbacks, bind, invoke, ret.
    destruct (send_command_spec cam cmd params raw s0)
      as (_ & _ & _ & Hd & _).
    destruct (send_command cam cmd params raw s0) as [[r0|e] s0'];
      simpl in *; [| discriminate].
    injection Hr as ->.
    destruct (call cb (fst r) (snd r) (world s0')) as [[x|] w]; simpl;
      now rewrite Hd.
  - split.
    + intros ->. now apply execute_command_sync_no_callback.
    + intros r Hr Hcb. unfold execute_command. rewrite D.
      unfold execute_with_callbacks, bind, invoke, ret.
      destruct (send_command_spec cam cmd params raw s)
        as (_ & _ & _ & Hd & _).
      destruct (send_command cam cmd params raw s) as [[r0|e] s'];
        simpl in *; [| discriminate].
      injection Hr as ->.
      destruct callback as [cb|]; [| split; [reflexivity | discriminate]].
      specialize (Hcb cb eq_refl).
      destruct (call cb (fst r) (snd r) (world s')) as [[x|] w];
        simpl in *; [discriminate |].
      split; [reflexivity |].
      intros cb' Hcb'. injection Hcb' as <-. now rewrite Hd.
Qed.

End EngineProperties.

(** ** The engine on concrete replies *)

(** A [result] element whose text is no integer makes the loop raise,
    on every platform: [int(child.text)] is outside the [try]. *)
Lemma result_text_not_integer_raises {P : Platform} (cam : FoscamCamera)
    (cmd : string) (params : option odict) (s : State)
    (raw_string tag t : string) (text : option string)
    (rest : list Element) :
  fst (urlopen (ssl cam && ssl_enabled)
         (request_url ssl_enabled cam cmd params) (world s))
    = Some raw_string ->
  fromstring raw_string
    = Some (Elem tag text (Elem "result" (Some t) [] :: rest)) ->
  tag <> "result" ->
  py_int t = None ->
  fst (send_command cam cmd params false s) = Exc ValueError.
Proof.
  intros Hu Hp Ht Hi. rewrite send_command_outcome, Hu. simpl.
  rewrite Hp. simpl.
  apply String.eqb_neq in Ht. rewrite Ht.
  destruct (negb (String.eqb tag "CGI_Result")); simpl; now rewrite Hi.
Qed.

(** C1, the code at a failing input: the reply is well-formed XML, so
    the parser accepts it, and [int("abc")] then raises [ValueError]
    after the [try] block; [send_command] raises instead of returning
    [Unavailable]. *)
Theorem send_command_raises_on_result_text :
  MiniXML.fromstring "<CGI_Result><result>abc</result></CGI_Result>"
    = Some (Elem "CGI_Result" None [Elem "result" (Some "abc") []])
  /\ fst (send_command (P := scripted false) sample_camera "getDevState"
            None false
            (initial (P := scripted false)
               [Some "<CGI_Result><result>abc</result></CGI_Result>"]))
     = Exc ValueError
  /\ fst (execute_command (P := scripted false) sample_camera "getDevState"
            None None false
            (initial (P := scripted false)
               [Some "<CGI_Result><result></result></CGI_Result>"]))
     = Exc TypeError.
Proof. repeat split. Qed.

(** C3 (as amended): the fields [send_command] returns never have the
    key [result] nor the key [CGI_Result], the one envelope tag the loop
    skips; the reply
    [<CGI_Result><result>0</result><foo>bar</foo></CGI_Result>]
    decodes to code 0 with the single field [foo], of value [bar]; and
    an outer envelope of any other tag than [CGI_Result] and [result]
    is a key of the fields. *)
Theorem fields_exclude_result_and_CGI_Result :
  (forall (P : Platform) (cam : FoscamCamera) (cmd : string)
          (params : option odict) (raw : bool) (s : State) (code : Z)
          (fields : odict),
      fst (send_command cam cmd params raw s) = Ret (code, PFields fields) ->
      ~ In "result" (od_keys fields) /\ ~ In "CGI_Result" (od_keys fields))
  /\ (forall (ssl_on : bool) (cam : FoscamCamera) (cmd : string)
            (params : option odict) (replies : list (option string)),
        fst (send_command (P := scripted ssl_on) cam cmd params false
               (initial (P := scripted ssl_on)
                  (Some "<CGI_Result><result>0</result><foo>bar</foo></CGI_Result>"
                   :: replies)))
        = Ret (0, PFields [("foo", VStr "bar")]))
  /\ (forall (P : Platform) (cam : FoscamCamera) (cmd : string)
            (params : option odict) (s : State) (raw_string tag : string)
            (text : option string) (children : list Element) (code : Z)
            (fields : odict),
        fst (urlopen (ssl cam && ssl_enabled)
               (request_url ssl_enabled cam cmd params) (world s))
          = Some raw_string ->
        fromstring raw_string = Some (Elem tag text children) ->
        tag <> "CGI_Result" ->
        tag <> "result" ->
        fst (send_command cam cmd params false s)
          = Ret (code, PFields fields) ->
        In tag (od_keys fields)).
Proof.
  split; [| split].
  - intros P cam cmd params raw s code fields H.
    destruct (fields_only_from_parsed_reply _ _ _ _ _ _ _ H)
      as (_ & b & root & _ & _ & Hd).
    split; intro Hin;
      destruct (decode_loop_keys _ _ _ _ _ Hd _ Hin) as [[]|[H1 H2]];
      congruence.
  - intros ssl_on cam cmd params replies.
    rewrite send_command_outcome. reflexivity.
  - intros P cam cmd params s raw_string tag text children code fields
      Hu Hp Hc Hr.
    rewrite send_command_outcome, Hu. simpl. rewrite Hp.
    apply String.eqb_neq in Hc, Hr.
    cbn [iter decode_loop]. rewrite Hr, Hc. cbn [negb].
    destruct (decode_loop _ _ _) as [[c f]|e] eqn:Hd; [| discriminate].
    intro H. injection H as _ <-.
    apply (decode_loop_keeps_keys _ _ _ _ _ Hd).
    apply od_keys_set. now right.
Qed.

(** The fields of a motion detection reply, and an envelope of another
    tag. *)
Lemma fields_exclude_result_and_CGI_Result_witness :
  (~ In "result" (od_keys [("isEnable", VStr "0"); ("linkage", VStr "3")])
   /\ ~ In "CGI_Result"
        (od_keys [("isEnable", VStr "0"); ("linkage", VStr "3")]))
  /\ In "Other" (od_keys [("Other", VNone); ("foo", VStr "bar")]).
Proof.
  split.
  - apply (proj1 fields_exclude_result_and_CGI_Result (scripted false)
             sample_camera "getMotionDetectConfig" None false
             (initial (P := scripted false) [Some sample_config_reply]) 0).
    reflexivity.
  - apply (proj2 (proj2 fields_exclude_result_and_CGI_Result)
             (scripted false) sample_camera "getDevState" None
             (initial (P := scripted false)
                [Some "<Other><result>0</result><foo>bar</foo></Other>"])
             "<Other><result>0</result><foo>bar</foo></Other>" "Other" None
             [Elem "result" (Some "0") []; Elem "foo" (Some "bar") []] 0);
      try reflexivity; discriminate.
Defined.

(** C3, the claim as stated fails: under an envelope with another tag
    than [CGI_Result] the envelope's own tag is a key of the fields. *)
Lemma other_envelope_tag_is_a_field :
  fst (send_command (P := scripted false) sample_camera "getDevState"
         None false
         (initial (P := scripted false)
            [Some "<Other><result>0</result><foo>bar</foo></Other>"]))
  = Ret (0, PFields [("Other", VNone); ("foo", VStr "bar")])
  /\ In "Other" (od_keys [("Other", VNone); ("foo", VStr "bar")]).
Proof. split; [reflexivity | now left]. Qed.

(** A reply that is no XML, requested in raw mode. *)
Lemma raw_mode_returns_reply_witness :
  fst (send_command (P := scripted false) sample_camera "snapPicture2"
         None true (initial (P := scripted false) [Some "<notxml"]))
  = Ret (FOSCAM_SUCCESS, PRaw "<notxml").
Proof.
  apply (raw_mode_returns_reply (P := scripted false) sample_camera
           "snapPicture2" None
           (initial (P := scripted false) [Some "<notxml"]) "<notxml").
  reflexivity.
Defined.

(** The camera denies the get command: one request, code -3. *)
Lemma set_motion_detection_get_failure_witness :
  let s := initial (P := scripted false) [Some sample_denied_reply] in
  let s1 := snd (get_motion_detect_config sample_camera None s) in
  set_motion_detection sample_camera (VInt 1) s = (Ret ERROR_FOSCAM_CMD, s1)
  /\ requests s1
     = [(false,
         "http://cam:88/cgi-bin/CGIProxy.fcgi?usr=admin&pwd=secret&cmd=getMotionDetectConfig")].
Proof.
  intros s s1.
  destruct (set_motion_detection_get_failure (P := scripted false)
              sample_camera (VInt 1) s s1 ERROR_FOSCAM_CMD (PFields []))
    as (H1 & H2 & _).
  - reflexivity.
  - unfold ERROR_FOSCAM_CMD, FOSCAM_SUCCESS. lia.
  - split; [exact H1 | exact H2].
Defined.

(** C2, the claim as stated fails: the get phase returns [Success], the
    camera denies the set command (code -3), and the operation returns
    [Success]. *)
Lemma set_failure_reported_as_success :
  let s := initial (P := scripted false)
             [Some sample_config_reply; Some sample_denied_reply] in
  let s1 := snd (get_motion_detect_config sample_camera None s) in
  get_motion_detect_config sample_camera None s
  = (Ret (Some (FOSCAM_SUCCESS,
               PFields [("isEnable", VStr "0"); ("linkage", VStr "3")])), s1)
  /\ fst (set_motion_detect_config sample_camera
            [("isEnable", VInt 1); ("linkage", VStr "3")] None s1)
     = Ret (Some (ERROR_FOSCAM_CMD, PFields []))
  /\ fst (set_motion_detection sample_camera (VInt 1) s)
     = Ret FOSCAM_SUCCESS
  /\ FOSCAM_SUCCESS <> ERROR_FOSCAM_CMD.
Proof. repeat split. discriminate. Qed.

(** The get command succeeds and the camera denies the set command. *)
Lemma set_motion_detection_after_successful_get_witness :
  let s := initial (P := scripted false)
             [Some sample_config_reply; Some sample_denied_reply] in
  daemon sample_camera = false
  /\ fst (set_motion_detection sample_camera (VInt 1) s) = Ret FOSCAM_SUCCESS.
Proof.
  intro s.
  destruct (set_motion_detection_after_successful_get (P := scripted false)
              sample_camera (VInt 1) s
              (snd (get_motion_detect_config sample_camera None s))
              (PFields [("isEnable", VStr "0"); ("linkage", VStr "3")])
              eq_refl)
    as (D & d & Hd & Hset & _).
  split; [exact D |].
  rewrite Hset. injection Hd as <-. reflexivity.
Defined.

(** The set command's request carries [linkage] as it was received. *)
Lemma set_motion_detection_frame_witness :
  let s := initial (P := scripted false)
             [Some sample_config_reply; Some sample_denied_reply] in
  let d := [("isEnable", VStr "0"); ("linkage", VStr "3")] in
  requests (snd (set_motion_detection sample_camera (VInt 1) s))
  = [(false,
      "http://cam:88/cgi-bin/CGIProxy.fcgi?usr=admin&pwd=secret&cmd=getMotionDetectConfig");
     (false,
      "http://cam:88/cgi-bin/CGIProxy.fcgi?usr=admin&pwd=secret&cmd=setMotionDetectConfig&isEnable=1&linkage=3")]
  /\ od_get "linkage" (od_set "isEnable" (VInt 1) d) = od_get "linkage" d.
Proof.
  intros s d.
  destruct (set_motion_detection_frame (P := scripted false)
              sample_camera (VInt 1) s
              (snd (get_motion_detect_config sample_camera None s))
              d eq_refl)
    as (_ & Hreq & Hother & _).
  split; [exact Hreq | apply Hother; discriminate].
Defined.

(** The same command in daemon mode and in synchronous mode, with a
    callback that returns. *)
Lemma execute_command_return_value_witness :
  fst (execute_command (P := scripted false) sample_daemon_camera
         "getIPInfo" None (Some None) false
         (initial (P := scripted false) [Some sample_denied_reply]))
  = Ret None
  /\ fst (execute_command (P := scripted false) sample_camera
            "getIPInfo" None (Some None) false
            (initial (P := scripted false) [Some sample_denied_reply]))
     = Ret (Some (ERROR_FOSCAM_CMD, PFields [])).
Proof.
  split.
  - apply (execute_command_return_value (P := scripted false)
             sample_daemon_camera "getIPInfo" None (Some None) false
             (initial (P := scripted false) [Some sample_denied_reply])).
    reflexivity.
  - apply (execute_command_return_value (P := scripted false)
             sample_camera "getIPInfo" None (Some None) false
             (initial (P := scripted false) [Some sample_denied_reply])).
    + reflexivity.
    + reflexivity.
    + intros cb Hcb. injection Hcb as <-. reflexivity.
Defined.

(** * Further properties of the engine *)

(** ** The loop over the elements of a reply *)

Section ReplyProperties.
Context {P : Platform}.

Lemma decode_loop_app (a b : list (string * option string)) :
  forall (code : Z) (params : odict),
    decode_loop (a ++ b) code params
    = match decode_loop a code params with
      | Ret (c, p) => decode_loop b c p
      | Exc e => Exc e
      end.
Proof.
  induction a as [|[tag text] r IH]; intros code params; [reflexivity |].
  simpl. destruct (String.eqb tag "result").
  - destruct text as [t|]; [| reflexivity].
    destruct (py_int t); [apply IH | reflexivity].
  - destruct (negb (String.eqb tag "CGI_Result")); apply IH.
Qed.

Lemma decode_loop_no_result (nodes : list (string * option string)) :
  ~ In "result" (map fst nodes) ->
  forall (code : Z) (params : odict),
    decode_loop nodes code params = Ret (code, store_fields nodes params).
Proof.
  induction nodes as [|[tag text] r IH]; intros Hn code params.
  - reflexivity.
  - simpl in *. unfold is_field_tag.
    destruct (String.eqb tag "result") eqn:E.
    + apply String.eqb_eq in E. tauto.
    + simpl. destruct (negb (String.eqb tag "CGI_Result")); apply IH; tauto.
Qed.

Lemma od_keys_od_set (k : string) (v : pyval) (d : odict) :
  od_keys (od_set k v d) = add_key (od_keys d) k.
Proof.
  unfold add_key, od_keys.
  induction d as [|[a b] r IH]; [reflexivity |].
  simpl. rewrite (String.eqb_sym k a).
  destruct (String.eqb a k) eqn:E; simpl.
  - apply String.eqb_eq in E. now subst a.
  - rewrite IH. now destruct (existsb (String.eqb k) (map fst r)).
Qed.

Lemma NoDup_add_key (l : list string) (k : string) :
  NoDup l -> NoDup (add_key l k).
Proof.
  unfold add_key. intro H.
  destruct (existsb (String.eqb k) l) eqn:E; [assumption |].
  assert (Hk : ~ In k l).
  { intro Hin.
    assert (existsb (String.eqb k) l = true)
      by (apply existsb_exists; exists k; split;
          [assumption | apply String.eqb_refl]).
    congruence. }
  clear E. induction H as [|a r Ha Hr IH]; simpl.
  - constructor; [tauto | constructor].
  - simpl in Hk. constructor; [| tauto].
    intro Hin. apply in_app_or in Hin. simpl in Hin.
    destruct Hin as [Hin|[Heq|[]]]; [tauto | subst; tauto].
Qed.

Lemma decode_loop_od_keys (nodes : list (string * option string)) :
  forall (code : Z) (params : odict) (code' : Z) (fields : odict),
    decode_loop nodes code params = Ret (code', fields) ->
    od_keys fields
    = fold_left add_key (filter is_field_tag (map fst nodes))
        (od_keys params).
Proof.
  induction nodes as [|[tag text] r IH]; intros code params code' fields.
  - simpl. intro H. now injection H as _ <-.
  - simpl. unfold is_field_tag at 1.
    destruct (String.eqb tag "result") eqn:Er; simpl.
    + destruct text as [t|]; [| discriminate].
      destruct (py_int t); [apply IH | discriminate].
    + destruct (String.eqb tag "CGI_Result"); simpl.
      * apply IH.
      * intro H. rewrite (IH _ _ _ _ H). now rewrite od_keys_od_set.
Qed.

Lemma decode_loop_keeps_other_keys (k : string)
    (nodes : list (string * option string)) :
  ~ In k (map fst nodes) ->
  forall (code : Z) (params : odict) (code' : Z) (fields : odict),
    decode_loop nodes code params = Ret (code', fields) ->
    od_get k fields = od_get k params.
Proof.
  induction nodes as [|[tag text] r IH]; intros Hn code params code' fields.
  - simpl. intro H. now injection H as _ <-.
  - simpl in *. destruct (String.eqb tag "result").
    + destruct text as [t|]; [| discriminate].
      destruct (py_int t); [apply IH; tauto | discriminate].
    + destruct (negb (String.eqb tag "CGI_Result")).
      * intro H. rewrite (IH ltac:(tauto) _ _ _ _ H).
        apply od_get_set_other. intro Heq. subst. tauto.
      * apply IH. tauto.
Qed.

(** The outcome of [send_command] on a reply the parser accepts. *)
Lemma send_command_parsed (cam : FoscamCamera) (cmd : string)
    (params : option odict) (s : State) (raw_string : string)
    (root : Element) :
  fst (urlopen (ssl cam && ssl_enabled)
         (request_url ssl_enabled cam cmd params) (world s))
    = Some raw_string ->
  fromstring raw_string = Some root ->
  fst (send_command cam cmd params false s)
  = match decode_loop (iter root) ERROR_FOSCAM_UNKNOWN [] with
    | Exc e => Exc e
    | Ret (code, fields) => Ret (code, PFields fields)
    end.
Proof.
  intros Hu Hp. rewrite send_command_outcome, Hu. simpl. now rewrite Hp.
Qed.



(** X3: the code returned is the integer of the last [result] element
    of the reply, in document order. *)
Theorem last_result_element_gives_code (cam : FoscamCamera) (cmd : string)
    (params : option odict) (s : State) (raw_string : string)
    (root : Element) (before after : list (string * option string))
    (t : string) (code : Z) (p : payload) :
  fst (urlopen (ssl cam && ssl_enabled)
         (request_url ssl_enabled cam cmd params) (world s))
    = Some raw_string ->
  fromstring raw_string = Some root ->
  iter root = (before ++ ("result", Some t) :: after)%list ->
  ~ In "result" (map fst after) ->
  fst (send_command cam cmd params false s) = Ret (code, p) ->
  py_int t = Some code.
Proof.
  intros Hu Hp Hi Hn. rewrite (send_command_parsed _ _ _ _ _ _ Hu Hp), Hi.
  rewrite decode_loop_app.
  destruct (decode_loop before _ _) as [[c f]|e]; [| discriminate].
  simpl. destruct (py_int t) as [z|]; [| discriminate].
  rewrite (decode_loop_no_result _ Hn z f).
  intro H. now injection H as <- _.
Qed.

(** X4: the keys of the returned fields are the tags of the reply's
    elements other than [result] and [CGI_Result], each once, in the
    order of their first occurrence in the document; no key is
    repeated. *)
Theorem fields_keys_in_document_order (cam : FoscamCamera) (cmd : string)
    (params : option odict) (s : State) (raw_string : string)
    (root : Element) (code : Z) (fields : odict) :
  fst (urlopen (ssl cam && ssl_enabled)
         (request_url ssl_enabled cam cmd params) (world s))
    = Some raw_string ->
  fromstring raw_string = Some root ->
  fst (send_command cam cmd params false s) = Ret (code, PFields fields) ->
  od_keys fields
  = fold_left add_key (filter is_field_tag (map fst (iter root))) []
  /\ NoDup (od_keys fields).
Proof.
  intros Hu Hp. rewrite (send_command_parsed _ _ _ _ _ _ Hu Hp).
  destruct (decode_loop _ _ _) as [[c f]|e] eqn:Hd; [| discriminate].
  intro H. injection H as -> ->.
  rewrite (decode_loop_od_keys _ _ _ _ _ Hd). split; [reflexivity |].
  simpl. generalize (@nil string), (NoDup_nil string).
  induction (filter is_field_tag (map fst (iter root))) as [|k r IH];
    intros l Hl; simpl; [assumption |].
  apply IH. now apply NoDup_add_key.
Qed.

(** X5: when a tag occurs several times in a reply, the field holds the
    unquoted text of its last element ([None] for an element without
    text). *)
Theorem last_element_gives_field_value (cam : FoscamCamera) (cmd : string)
    (params : option odict) (s : State) (raw_string : string)
    (root : Element) (before after : list (string * option string))
    (tag : string) (text : option string) (code : Z) (fields : odict) :
  fst (urlopen (ssl cam && ssl_enabled)
         (request_url ssl_enabled cam cmd params) (world s))
    = Some raw_string ->
  fromstring raw_string = Some root ->
  iter root = (before ++ (tag, text) :: after)%list ->
  is_field_tag tag = true ->
  ~ In tag (map fst after) ->
  fst (send_command cam cmd params false s) = Ret (code, PFields fields) ->
  od_get tag fields = Some (field_value text).
Proof.
  intros Hu Hp Hi Ht Hn. rewrite (send_command_parsed _ _ _ _ _ _ Hu Hp), Hi.
  rewrite decode_loop_app.
  destruct (decode_loop before _ _) as [[c f]|e]; [| discriminate].
  simpl. unfold is_field_tag in Ht. apply andb_true_iff in Ht.
  destruct Ht as [Hr Hc]. apply negb_true_iff in Hr. rewrite Hr, Hc.
  destruct (decode_loop after _ _) as [[c' f']|e] eqn:Hd; [| discriminate].
  intro H. injection H as _ <-.
  rewrite (decode_loop_keeps_other_keys _ _ Hn _ _ _ _ Hd).
  apply od_get_set_same.
Qed.

End ReplyProperties.

(** ** Quoting of parameters *)

Lemma unquote_plain (c : ascii) (r : string) :
  Ascii.eqb c "%" = false ->
  unquote_to_bytes (String c r) = String c (unquote_to_bytes r).
Proof.
  intro H. destruct r as [|h [|l r']]; simpl; try reflexivity.
  now rewrite H.
Qed.

Lemma unquote_quote_plus_byte (c : ascii) (r : string) :
  unquote_to_bytes (quote_plus_byte c ++ r)
  = String (if Ascii.eqb c " " then "+"%char else c) (unquote_to_bytes r).
Proof.
  destruct c as [[] [] [] [] [] [] [] []];
    first [ reflexivity | apply unquote_plain; reflexivity ].
Qed.

Lemma plus_for_space_app (a b : string) :
  plus_for_space (a ++ b) = plus_for_space a ++ plus_for_space b.
Proof. induction a as [|c r IH]; simpl; [reflexivity | now rewrite IH]. Qed.

(** The decoder treats [+] as it treats a space. *)
Lemma utf8_first_plus (c : ascii) :
  utf8_first (if Ascii.eqb c " " then "+"%char else c)
  = (plus_for_space (fst (utf8_first c)), snd (utf8_first c))
  /\ no_space_state (snd (utf8_first c)).
Proof. destruct c as [[] [] [] [] [] [] [] []]; repeat split. Qed.

Lemma in_range_continuation (lo hi : nat) (c : ascii) :
  Nat.leb 128 lo = true ->
  in_range lo hi c = true ->
  Ascii.eqb c " " = false.
Proof.
  intros Hlo Hr. destruct (Ascii.eqb c " ") eqn:E; [| reflexivity].
  apply Ascii.eqb_eq in E. subst c. unfold in_range in Hr.
  change (nat_of_ascii " ") with 32%nat in Hr. cbv zeta in Hr.
  apply Nat.leb_le in Hlo. apply andb_true_iff in Hr. destruct Hr as [Hr _].
  apply Nat.leb_le in Hr. lia.
Qed.

Lemma plus_not_continuation (lo hi : nat) :
  Nat.leb 128 lo = true -> in_range lo hi "+" = false.
Proof.
  intro Hlo. unfold in_range.
  change (nat_of_ascii "+") with 43%nat. cbv zeta.
  apply Nat.leb_le in Hlo.
  destruct (Nat.leb lo 43) eqn:E; [| reflexivity].
  apply Nat.leb_le in E. lia.
Qed.

(** Decoding commutes with writing [+] for the spaces. *)
Lemma utf8_run_plus_for_space (s : string) :
  forall st : utf8_state,
    no_space_state st ->
    utf8_run st (plus_for_space s) = plus_for_space (utf8_run st s).
Proof.
  induction s as [|c r IH]; intros st Hok.
  - destruct st; reflexivity.
  - change (plus_for_space (String c r))
      with (String (if Ascii.eqb c " " then "+"%char else c)
              (plus_for_space r)).
    destruct (utf8_first_plus c) as [H1 H2].
    destruct st as [|seen need lo hi]; cbn [utf8_run].
    + rewrite H1. cbn [fst snd]. rewrite plus_for_space_app.
      now rewrite (IH _ H2).
    + destruct Hok as [Hs Hlo].
      destruct (in_range lo hi c) eqn:E.
      * pose proof (in_range_continuation _ _ _ Hlo E) as Hc.
        rewrite Hc, E.
        assert (Hone : plus_for_space (seen ++ String c "")
                       = seen ++ String c "")
          by (rewrite plus_for_space_app, Hs; simpl; now rewrite Hc).
        destruct need as [|[|k]].
        -- rewrite plus_for_space_app, Hone. now rewrite (IH Utf8Start I).
        -- rewrite plus_for_space_app, Hone. now rewrite (IH Utf8Start I).
        -- apply IH. split; [exact Hone | reflexivity].
      * assert (E' : in_range lo hi (if Ascii.eqb c " " then "+"%char else c)
                     = false)
          by (destruct (Ascii.eqb c " ");
              [now apply plus_not_continuation | exact E]).
        rewrite E', H1. cbn [fst snd].
        rewrite !plus_for_space_app. now rewrite (IH _ H2).
Qed.

Lemma quote_plus_byte_chars (c : ascii) :
  MiniXML.all_chars quoted_char (quote_plus_byte c) = true
  /\ count_char "&" (quote_plus_byte c) = O
  /\ count_char "=" (quote_plus_byte c) = O.
Proof. destruct c as [[] [] [] [] [] [] [] []]; repeat split. Qed.

Lemma all_chars_app (f : ascii -> bool) (a b : string) :
  MiniXML.all_chars f (a ++ b)
  = (MiniXML.all_chars f a && MiniXML.all_chars f b)%bool.
Proof.
  induction a as [|c r IH]; simpl; [reflexivity |].
  rewrite IH. now rewrite andb_assoc.
Qed.

Lemma count_char_app (c : ascii) (a b : string) :
  count_char c (a ++ b) = (count_char c a + count_char c b)%nat.
Proof.
  induction a as [|x r IH]; simpl; [reflexivity |]. rewrite IH. lia.
Qed.

Lemma count_char_quote_plus (s : string) :
  count_char "&" (quote_plus s) = O /\ count_char "=" (quote_plus s) = O.
Proof.
  induction s as [|c r [IH1 IH2]]; simpl; [now split |].
  rewrite !count_char_app, IH1, IH2.
  destruct (quote_plus_byte_chars c) as (_ & -> & ->). now split.
Qed.

(** X6: the percent-decoding of [unquote] undoes [quote_plus] but for
    the spaces, which [quote_plus] writes as [+] and the decoding
    leaves as [+]; a text without a space comes back as it was.  For a
    text, whose bytes are well-formed UTF-8, [unquote] itself does
    so. *)
Theorem unquote_quote_plus (s : string) :
  unquote_to_bytes (quote_plus s) = plus_for_space s
  /\ (count_char " " s = O -> unquote_to_bytes (quote_plus s) = s)
  /\ (utf8_replace s = s ->
      unquote (quote_plus s) = plus_for_space s
      /\ (count_char " " s = O -> unquote (quote_plus s) = s)).
Proof.
  assert (H : unquote_to_bytes (quote_plus s) = plus_for_space s).
  { induction s as [|c r IH]; [reflexivity |].
    simpl. now rewrite unquote_quote_plus_byte, IH. }
  assert (Hs : count_char " " s = O -> plus_for_space s = s).
  { clear H. induction s as [|c r IH]; [reflexivity |].
    simpl. destruct (Ascii.eqb c " "); [discriminate |].
    intro Hc. now rewrite IH. }
  split; [exact H |]. split; [intro Hc; now rewrite H, Hs |].
  intro Hv.
  assert (Hu : unquote (quote_plus s) = plus_for_space s).
  { unfold unquote, utf8_replace. rewrite H.
    rewrite (utf8_run_plus_for_space s Utf8Start I).
    fold (utf8_replace s). now rewrite Hv. }
  split; [exact Hu |]. intro Hc. now rewrite Hu, Hs.
Qed.

Lemma unquote_quote_plus_witness : unquote (quote_plus "a/b&c=d") = "a/b&c=d".
Proof.
  destruct (unquote_quote_plus "a/b&c=d") as (_ & _ & H).
  apply H; reflexivity.
Defined.

(** X7: a quoted key or value is made of letters, digits and the
    characters [_.-~+%] only. *)
Theorem quote_plus_characters (s : string) :
  MiniXML.all_chars quoted_char (quote_plus s) = true.
Proof.
  induction s as [|c r IH]; [reflexivity |].
  simpl. rewrite all_chars_app, IH.
  now destruct (quote_plus_byte_chars c) as (-> & _).
Qed.

(** X8: whatever the keys and values are, the parameter string has one
    [&] and one [=] for each item: no key or value adds a separator. *)
Theorem paramstr_separators (params : option odict) :
  count_char "&" (paramstr params) = length (items params)
  /\ count_char "=" (paramstr params) = length (items params).
Proof.
  rewrite paramstr_encoded_pairs.
  induction (items params) as [|[k v] r [IH1 IH2]]; [now split |].
  unfold encoded_pairs; fold encoded_pairs. unfold encode_item. simpl fst.
  simpl snd.
  destruct (count_char_quote_plus k) as [Hk1 Hk2].
  destruct (count_char_quote_plus (py_str v)) as [Hv1 Hv2].
  split; simpl; rewrite !count_char_app; simpl;
    rewrite ?Hk1, ?Hk2, ?Hv1, ?Hv2, ?IH1, ?IH2; simpl; lia.
Qed.

(** X9: when the camera does not use TLS, or the [ssl] module is
    missing, the requested URL is
    [http://host:port/cgi-bin/CGIProxy.fcgi?usr=..&pwd=..&cmd=..]
    followed by [&key=value], quoted, for each parameter in order; the
    user name, the password and the command are not quoted. *)
Theorem request_url_without_tls (ssl_on : bool) (cam : FoscamCamera)
    (cmd : string) (params : option odict) :
  (ssl cam && ssl_on)%bool = false ->
  request_url ssl_on cam cmd params
  = "http://" ++ host cam ++ ":" ++ string_of_Z (port cam)
    ++ "/cgi-bin/CGIProxy.fcgi?usr=" ++ usr cam ++ "&pwd=" ++ pwd cam
    ++ "&cmd=" ++ cmd ++ encoded_pairs (items params).
Proof.
  intro H. rewrite (request_url_plain _ _ _ _ H). apply cmdurl_shape.
Qed.

Lemma request_url_without_tls_witness :
  request_url false sample_camera "setIpInfo"
    (Some [("isDHCP", VInt 0); ("ip", VStr "10.0.0.2 "); ("gate", VNone)])
  = "http://cam:88/cgi-bin/CGIProxy.fcgi?usr=admin&pwd=secret&cmd=setIpInfo&isDHCP=0&ip=10.0.0.2+&gate=None".
Proof.
  apply (request_url_without_tls false sample_camera "setIpInfo"
           (Some [("isDHCP", VInt 0); ("ip", VStr "10.0.0.2 ");
                  ("gate", VNone)])).
  reflexivity.
Defined.

(** ** Requests, threads and callbacks *)

Section DispatchProperties.
Context {P : Platform}.



(** X12: a value [send_command] returns without [raw] is never raw
    bytes; it is without a payload only with the code [Unavailable],
    and any other code comes with the mapping of the fields. *)
Theorem non_raw_payload_shape (cam : FoscamCamera) (cmd : string)
    (params : option odict) (s : State) (code : Z) (p : payload) :
  fst (send_command cam cmd params false s) = Ret (code, p) ->
  (forall raw_string : string, p <> PRaw raw_string)
  /\ (p = PNone -> code = ERROR_FOSCAM_UNAVAILABLE)
  /\ (code <> ERROR_FOSCAM_UNAVAILABLE -> exists d : odict, p = PFields d).
Proof.
  intro H.
  destruct (send_command_parsed_payload _ _ _ _ _ _ H) as [[-> ->]|[d ->]].
  - repeat split; [discriminate | congruence].
  - repeat split; [discriminate | discriminate |].
    intros _. now exists d.
Qed.

(** X13: [execute_with_callbacks], in the caller or in a thread, calls
    the callback once, with the pair [send_command] returned, after the
    request; without a callback, or when [send_command] raises, no
    callback is called. *)
Theorem callback_called_once (cam : FoscamCamera) (cmd : string)
    (params : option odict) (callback : option Callback) (raw : bool)
    (s : State) :
  delivered (snd (execute_with_callbacks cam cmd params callback raw s))
  = (delivered s
     ++ match fst (send_command cam cmd params raw s), callback with
        | Ret r, Some cb => [(cb, fst r, snd r)]
        | _, _ => []
        end)%list
  /\ requests (snd (execute_with_callbacks cam cmd params callback raw s))
     = requests (snd (send_command cam cmd params raw s)).
Proof.
  unfold execute_with_callbacks, bind, invoke, ret.
  destruct (send_command_spec cam cmd params raw s)
    as (_ & _ & _ & Hd & _).
  destruct (send_command cam cmd params raw s) as [[r|e] s']; simpl in *.
  - destruct callback as [cb|]; simpl.
    + destruct (call cb (fst r) (snd r) (world s')) as [[x|] w]; simpl;
        now rewrite Hd.
    + now rewrite Hd, app_nil_r.
  - rewrite Hd. destruct callback; now rewrite app_nil_r.
Qed.

(** X14: the thread a daemon camera starts for a command leaves the
    state the same command leaves when it is executed on the camera in
    synchronous mode. *)
Theorem thread_runs_the_synchronous_command (cam : FoscamCamera)
    (cmd : string) (params : option odict) (callback : option Callback)
    (raw : bool) (s : State) :
  run_thread cam
    {| t_cmd := cmd; t_params := params; t_callback := callback;
       t_raw := raw |} s
  = snd (execute_command (synchronous cam) cmd params callback raw s).
Proof.
  unfold run_thread, execute_command. simpl.
  change (execute_with_callbacks (synchronous cam) cmd params callback raw)
    with (execute_with_callbacks cam cmd params callback raw).
  unfold bind, ret.
  now destruct (execute_with_callbacks cam cmd params callback raw s)
    as [[r|e] s'].
Qed.

(** ** The callers *)

(** X15: on a camera in daemon mode [set_motion_detection] and
    [set_motion_detection1] raise [TypeError]: the get command returns
    [None], which cannot be unpacked.  The caller's thread sends no
    request; the get command is left to a thread, and no set command is
    issued. *)
Theorem set_motion_detection_daemon_raises (cam : FoscamCamera)
    (enabled : pyval) (s : State) :
  daemon cam = true ->
  let started (c : string) :=
    {| world := world s; requests := requests s; delivered := delivered s;
       threads := (threads s
                   ++ [{| t_cmd := c; t_params := None;
                          t_callback := None; t_raw := false |}])%list;
       stdout := stdout s |} in
  set_motion_detection cam enabled s
  = (Exc TypeError, started "getMotionDetectConfig")
  /\ set_motion_detection1 cam enabled s
     = (Exc TypeError, started "getMotionDetectConfig1").
Proof.
  intros D started. split.
  - unfold set_motion_detection, get_motion_detect_config, bind at 1.
    now rewrite (execute_command_daemon _ _ _ _ _ _ D).
  - unfold set_motion_detection1, get_motion_detect_config1, bind at 1.
    now rewrite (execute_command_daemon _ _ _ _ _ _ D).
Qed.

(** X16: [set_motion_detection1] never returns [FOSCAM_SUCCESS]: when
    the get phase returns another code it returns that code, in the
    state the get phase left, and when the get phase succeeds and the
    set command returns, it returns [None]. *)
Theorem set_motion_detection1_return_value (cam : FoscamCamera)
    (enabled : pyval) (s : State) :
  fst (set_motion_detection1 cam enabled s) <> Ret (Some FOSCAM_SUCCESS)
  /\ (forall (code : Z) (p : payload) (s1 : State),
        get_motion_detect_config1 cam None s = (Ret (Some (code, p)), s1) ->
        code <> FOSCAM_SUCCESS ->
        set_motion_detection1 cam enabled s = (Ret (Some code), s1))
  /\ (forall (d : odict) (s1 s2 : State) (r : option (Z * payload)),
        get_motion_detect_config1 cam None s
          = (Ret (Some (FOSCAM_SUCCESS, PFields d)), s1) ->
        set_motion_detect_config1 cam (od_set "isEnable" enabled d) None s1
          = (Ret r, s2) ->
        set_motion_detection1 cam enabled s = (Ret None, s2)).
Proof.
  unfold set_motion_detection1, bind.
  destruct (get_motion_detect_config1 cam None s) as [[[[code p]|]|e] s1];
    simpl.
  - destruct (code =? FOSCAM_SUCCESS) eqn:E; simpl.
    + apply Z.eqb_eq in E. subst code.
      repeat split.
      * destruct p as [| |d]; simpl; try discriminate.
        destruct (set_motion_detect_config1 _ _ _ _) as [[r|e] s2];
          discriminate.
      * intros code p' s1' H Hc. injection H as <- _ _. congruence.
      * intros d s1' s2 r H Hs. injection H as -> <-. now rewrite Hs.
    + repeat split.
      * unfold ret. simpl. intro H. injection H as ->.
        now rewrite Z.eqb_refl in E.
      * intros code' p' s1' H _. now injection H as <- _ <-.
      * intros d s1' s2 r H. injection H as -> _ _. discriminate.
  - repeat split; try discriminate.
  - repeat split; try discriminate.
Qed.

(** X17: [is_asleep] reads [data["state"]] only after a [Success]: for
    any other code it returns the code with [False], in synchronous
    mode, whatever the payload is.  After a [Success] it raises
    [KeyError] when the reply has no [state] element, and returns
    whether the integer of [state] is 1 when it has one. *)
Theorem is_asleep_cases (cam : FoscamCamera) (callback : option Callback)
    (s s1 : State) (code : Z) (data : payload) :
  execute_command cam "getAlexaState" None callback false s
    = (Ret (Some (code, data)), s1) ->
  (code <> 0 -> is_asleep cam callback s = (Returned (code, false), s1))
  /\ (forall d : odict,
        code = 0 -> data = PFields d -> od_get "state" d = None ->
        is_asleep cam callback s = (RaisedKeyError "state", s1))
  /\ (forall (d : odict) (t : string) (z : Z),
        code = 0 -> data = PFields d -> od_get "state" d = Some (VStr t) ->
        py_int t = Some z ->
        is_asleep cam callback s = (Returned (0, z =? 1), s1)).
Proof.
  intro H. unfold is_asleep. rewrite H. repeat split.
  - intro Hc. apply Z.eqb_neq in Hc. now rewrite Hc.
  - intros d -> -> Hs. simpl. now rewrite Hs.
  - intros d t z -> -> Hs Hz. simpl. now rewrite Hs, Hz.
Qed.

(** X18: [set_system_time] with an [ntp_server] that is none of the
    five supported names raises [ValueError] before anything is sent:
    the state is untouched.  With a supported name, in synchronous mode,
    it sends the one request of [setSystemTime] with the thirteen
    parameters in the order of the source. *)
Theorem set_system_time_checks_server (cam : FoscamCamera)
    (time_source ntp_server date_format time_format time_zone is_dst dst
     year mon day hour minute sec : pyval) (callback : option Callback)
    (s : State) :
  let run := set_system_time cam time_source ntp_server date_format
               time_format time_zone is_dst dst year mon day hour minute
               sec callback s in
  (in_ntp_servers ntp_server = false -> run = (Exc ValueError, s))
  /\ (in_ntp_servers ntp_server = true ->
      daemon cam = false ->
      requests (snd run)
      = (requests s
         ++ [((ssl cam && ssl_enabled)%bool,
              request_url ssl_enabled cam "setSystemTime"
                (Some [("timeSource", time_source);
                       ("ntpServer", ntp_server);
                       ("dateFormat", date_format);
                       ("timeFormat", time_format);
                       ("timeZone", time_zone); ("isDst", is_dst);
                       ("dst", dst); ("year", year); ("mon", mon);
                       ("day", day); ("hour", hour); ("minute", minute);
                       ("sec", sec)]))])%list).
Proof.
  cbv zeta. unfold set_system_time. split.
  - now intros ->.
  - intros -> D. simpl. unfold execute_command. rewrite D.
    unfold bind at 1.
    destruct (callback_called_once cam "setSystemTime"
                (Some [("timeSource", time_source);
                       ("ntpServer", ntp_server);
                       ("dateFormat", date_format);
                       ("timeFormat", time_format);
                       ("timeZone", time_zone); ("isDst", is_dst);
                       ("dst", dst); ("year", year); ("mon", mon);
                       ("day", day); ("hour", hour); ("minute", minute);
                       ("sec", sec)]) callback false s) as [_ Hr].
    destruct (execute_with_callbacks _ _ _ _ _ s) as [[r|e] s']; simpl in *;
      rewrite Hr; apply send_command_requests.
Qed.

(** X19: [snap_picture_2] passes an empty dict, so in synchronous mode
    it requests the URL of the command without parameters, and without
    a callback it returns the bytes of a reply as they are, with
    [Success]. *)
Theorem snap_picture_2_returns_bytes (cam : FoscamCamera) (s : State)
    (raw_string : string) :
  daemon cam = false ->
  fst (urlopen (ssl cam && ssl_enabled)
         (request_url ssl_enabled cam "snapPicture2" None) (world s))
    = Some raw_string ->
  fst (snap_picture_2 cam None s)
    = Ret (Some (FOSCAM_SUCCESS, PRaw raw_string))
  /\ requests (snd (snap_picture_2 cam None s))
     = (requests s
        ++ [((ssl cam && ssl_enabled)%bool,
             request_url ssl_enabled cam "snapPicture2" None)])%list.
Proof.
  intros D Hu. unfold snap_picture_2.
  rewrite execute_command_sync_no_callback by assumption. simpl.
  split.
  - rewrite send_command_outcome.
    change (request_url ssl_enabled cam "snapPicture2" (Some []))
      with (request_url ssl_enabled cam "snapPicture2" None).
    now rewrite Hu.
  - exact (send_command_requests cam "snapPicture2" (Some []) true s).
Qed.

End DispatchProperties.

(** ** Integers in replies *)

Lemma string_rev_app (a b : string) :
  string_rev (a ++ b) = string_rev b ++ string_rev a.
Proof.
  induction a as [|c r IH]; simpl.
  - now rewrite append_empty_r.
  - now rewrite IH, append_assoc.
Qed.

Lemma string_rev_involutive (s : string) : string_rev (string_rev s) = s.
Proof.
  induction s as [|c r IH]; simpl; [reflexivity |].
  now rewrite string_rev_app, IH.
Qed.

Lemma all_chars_string_rev (f : ascii -> bool) (s : string) :
  MiniXML.all_chars f (string_rev s) = MiniXML.all_chars f s.
Proof.
  induction s as [|c r IH]; simpl; [reflexivity |].
  rewrite all_chars_app, IH. simpl.
  now rewrite andb_true_r, andb_comm.
Qed.

Lemma lstrip_no_space (s : string) :
  MiniXML.all_chars (fun c => negb (is_space c)) s = true -> lstrip s = s.
Proof.
  destruct s as [|c r]; simpl; [reflexivity |].
  intro H. apply andb_true_iff in H. destruct H as [H _].
  apply negb_true_iff in H. now rewrite H.
Qed.

(** [strip] leaves a text without white space as it is. *)
Lemma strip_no_space (s : string) :
  MiniXML.all_chars (fun c => negb (is_space c)) s = true -> strip s = s.
Proof.
  intro H. unfold strip. rewrite (lstrip_no_space s H).
  rewrite lstrip_no_space by now rewrite all_chars_string_rev.
  apply string_rev_involutive.
Qed.

Lemma string_of_uint_no_space (d : Decimal.uint) :
  MiniXML.all_chars (fun c => negb (is_space c)) (NilEmpty.string_of_uint d)
  = true.
Proof. induction d; simpl; auto. Qed.

Lemma int_digits_acc (d : Decimal.uint) :
  forall acc : positive,
    int_digits (Z.pos acc) true (NilEmpty.string_of_uint d)
    = Some (Z.pos (Pos.of_uint_acc d acc)).
Proof.
  induction d; intro acc; simpl NilEmpty.string_of_uint;
    [reflexivity | ..];
    cbn [int_digits Pos.of_uint_acc]; rewrite <- IHd;
    match goal with
    | |- context [is_digit ?c] => change (is_digit c) with true
    end;
    match goal with
    | |- context [Z.of_nat ?n] =>
        let v := eval vm_compute in (Z.of_nat n) in
        change (Z.of_nat n) with v
    end;
    cbv iota; f_equal; lia.
Qed.

Lemma int_digits_uint (d : Decimal.uint) :
  forall b : bool,
    d <> Decimal.Nil \/ b = true ->
    int_digits 0 b (NilEmpty.string_of_uint d)
    = Some (Z.of_N (Pos.of_uint d)).
Proof.
  induction d; intros b Hb; simpl NilEmpty.string_of_uint;
    [destruct Hb as [Hb| ->]; [congruence | reflexivity] | ..];
    cbn [int_digits];
    match goal with
    | |- context [is_digit ?c] => change (is_digit c) with true
    end;
    match goal with
    | |- context [Z.of_nat ?n] =>
        let v := eval vm_compute in (Z.of_nat n) in
        change (Z.of_nat n) with v
    end;
    cbv iota; change (10 * 0) with 0; cbn [Z.add].
  - simpl Pos.of_uint. rewrite <- (IHd true) by now right. reflexivity.
  - exact (int_digits_acc d 1).
  - exact (int_digits_acc d 2).
  - exact (int_digits_acc d 3).
  - exact (int_digits_acc d 4).
  - exact (int_digits_acc d 5).
  - exact (int_digits_acc d 6).
  - exact (int_digits_acc d 7).
  - exact (int_digits_acc d 8).
  - exact (int_digits_acc d 9).
Qed.

Lemma is_ascii_uint (d : Decimal.uint) :
  is_ascii (NilEmpty.string_of_uint d) = true.
Proof. induction d; simpl; auto. Qed.

Lemma count_digits_uint (d : Decimal.uint) :
  count_digits (NilEmpty.string_of_uint d)
  = String.length (NilEmpty.string_of_uint d).
Proof. induction d; simpl; congruence. Qed.

Lemma int_body_within_limit (limit : nat) (t : string) :
  limit = O \/ (count_digits t <= limit)%nat ->
  int_body limit t = int_digits 0 false t.
Proof.
  intro H. unfold int_body.
  destruct H as [-> | H]; [reflexivity |].
  apply Nat.ltb_ge in H. rewrite H. now rewrite andb_false_r.
Qed.

(** [int] on the digits of a positive number, with or without [-]. *)
Lemma int_ascii_uint (limit : nat) (d : Decimal.uint) :
  d <> Decimal.Nil ->
  limit = O \/ (String.length (NilEmpty.string_of_uint d) <= limit)%nat ->
  int_ascii limit (NilEmpty.string_of_uint d)
    = Some (Z.of_N (Pos.of_uint d))
  /\ int_ascii limit (String "-" (NilEmpty.string_of_uint d))
     = Some (- Z.of_N (Pos.of_uint d)).
Proof.
  intros Hd Hl. rewrite <- count_digits_uint in Hl.
  pose proof (int_body_within_limit _ _ Hl) as Hb.
  rewrite (int_digits_uint d false (or_introl Hd)) in Hb.
  pose proof (string_of_uint_no_space d) as Hs.
  unfold int_ascii. split.
  - rewrite (strip_no_space _ Hs).
    destruct d; [congruence | ..]; exact Hb.
  - rewrite strip_no_space by exact Hs. now rewrite Hb.
Qed.

(** X20: [int] reads back the decimal text Python writes for an
    integer whose digits are within the interpreter's limit (or any
    integer, when there is no limit), so a [result] element that
    carries the text of [z] sets the code to [z], negative or not. *)
Theorem result_code_round_trip {P : Platform} (z : Z) :
  int_max_str_digits = O
  \/ (String.length (string_of_Z (Z.abs z)) <= int_max_str_digits)%nat ->
  py_int (string_of_Z z) = Some z
  /\ forall (code : Z) (params : odict),
      decode_loop [("result", Some (string_of_Z z))] code params
      = Ret (z, params).
Proof.
  intro Hl.
  assert (H : py_int (string_of_Z z) = Some z).
  { unfold py_int, string_of_Z in *. destruct z as [|p|p].
    - change (NilZero.string_of_int (Z.to_int (Z.abs 0)))
        with (NilEmpty.string_of_uint (Decimal.D0 Decimal.Nil)) in Hl.
      change (NilZero.string_of_int (Z.to_int 0))
        with (NilEmpty.string_of_uint (Decimal.D0 Decimal.Nil)).
      rewrite is_ascii_uint.
      now destruct (int_ascii_uint _ (Decimal.D0 Decimal.Nil)
                      ltac:(discriminate) Hl) as [-> _].
    - simpl Z.to_int in *. simpl NilZero.string_of_int in *.
      pose proof (Unsigned.to_uint_nonnil p) as Hn.
      pose proof (Unsigned.of_to p) as Hp.
      assert (E : NilZero.string_of_uint (Pos.to_uint p)
                  = NilEmpty.string_of_uint (Pos.to_uint p))
        by (destruct (Pos.to_uint p); [congruence | reflexivity ..]).
      rewrite E in *. rewrite is_ascii_uint.
      destruct (int_ascii_uint _ _ Hn Hl) as [-> _]. now rewrite Hp.
    - simpl Z.abs in Hl. simpl Z.to_int in *.
      simpl NilZero.string_of_int in *.
      pose proof (Unsigned.to_uint_nonnil p) as Hn.
      pose proof (Unsigned.of_to p) as Hp.
      assert (E : NilZero.string_of_uint (Pos.to_uint p)
                  = NilEmpty.string_of_uint (Pos.to_uint p))
        by (destruct (Pos.to_uint p); [congruence | reflexivity ..]).
      rewrite E in *.
      change (is_ascii (String "-" (NilEmpty.string_of_uint (Pos.to_uint p))))
        with (is_ascii (NilEmpty.string_of_uint (Pos.to_uint p))).
      rewrite is_ascii_uint.
      destruct (int_ascii_uint _ _ Hn Hl) as [_ ->]. now rewrite Hp. }
  split; [exact H |].
  intros code params. simpl. now rewrite H.
Qed.

(** ** The further properties on concrete replies *)



(** A reply with two [result] elements. *)
Lemma last_result_element_gives_code_witness :
  py_int (P := scripted false) "-2" = Some (-2).
Proof.
  apply (last_result_element_gives_code (P := scripted false)
           sample_camera "getDevState" None
           (initial (P := scripted false)
              [Some "<CGI_Result><result>0</result><result>-2</result><a>x</a></CGI_Result>"])
           "<CGI_Result><result>0</result><result>-2</result><a>x</a></CGI_Result>"
           (Elem "CGI_Result" None
              [Elem "result" (Some "0") []; Elem "result" (Some "-2") [];
               Elem "a" (Some "x") []])
           [("CGI_Result", None); ("result", Some "0")]
           [("a", Some "x")] "-2" (-2) (PFields [("a", VStr "x")]));
    try reflexivity.
  simpl. intros [H|[]]. discriminate.
Defined.

(** A reply in which the tag [b] occurs twice. *)
Lemma fields_keys_in_document_order_witness :
  od_keys [("b", VStr "3"); ("a", VStr "2")] = ["b"; "a"]
  /\ NoDup (od_keys [("b", VStr "3"); ("a", VStr "2")]).
Proof.
  apply (fields_keys_in_document_order (P := scripted false)
           sample_camera "getDevState" None
           (initial (P := scripted false)
              [Some "<CGI_Result><result>0</result><b>1</b><a>2</a><b>3</b></CGI_Result>"])
           "<CGI_Result><result>0</result><b>1</b><a>2</a><b>3</b></CGI_Result>"
           (Elem "CGI_Result" None
              [Elem "result" (Some "0") []; Elem "b" (Some "1") [];
               Elem "a" (Some "2") []; Elem "b" (Some "3") []])
           0 [("b", VStr "3"); ("a", VStr "2")]);
    reflexivity.
Defined.

Lemma last_element_gives_field_value_witness :
  od_get "b" [("b", VStr "3"); ("a", VStr "2")] = Some (VStr "3").
Proof.
  apply (last_element_gives_field_value (P := scripted false)
           sample_camera "getDevState" None
           (initial (P := scripted false)
              [Some "<CGI_Result><result>0</result><b>1</b><a>2</a><b>3</b></CGI_Result>"])
           "<CGI_Result><result>0</result><b>1</b><a>2</a><b>3</b></CGI_Result>"
           (Elem "CGI_Result" None
              [Elem "result" (Some "0") []; Elem "b" (Some "1") [];
               Elem "a" (Some "2") []; Elem "b" (Some "3") []])
           [("CGI_Result", None); ("result", Some "0"); ("b", Some "1");
            ("a", Some "2")]
           [] "b" (Some "3") 0 [("b", VStr "3"); ("a", VStr "2")]);
    try reflexivity.
  intros [].
Defined.

Lemma non_raw_payload_shape_witness :
  exists d : odict, PFields [] = PFields d.
Proof.
  apply (non_raw_payload_shape (P := scripted false) sample_camera
           "getDevState" None
           (initial (P := scripted false) [Some sample_denied_reply])
           ERROR_FOSCAM_CMD (PFields []));
    [reflexivity | discriminate].
Defined.

Lemma set_motion_detection_daemon_raises_witness :
  fst (set_motion_detection (P := scripted false) sample_daemon_camera
         (VInt 1)
         (initial (P := scripted false) [Some sample_config_reply]))
  = Exc TypeError.
Proof.
  destruct (set_motion_detection_daemon_raises (P := scripted false)
              sample_daemon_camera (VInt 1)
              (initial (P := scripted false) [Some sample_config_reply])
              eq_refl) as [H _].
  now rewrite H.
Defined.

Lemma set_motion_detection1_return_value_witness :
  let s := initial (P := scripted false) [Some sample_denied_reply] in
  set_motion_detection1 sample_camera (VInt 1) s
  = (Ret (Some ERROR_FOSCAM_CMD),
     snd (get_motion_detect_config1 sample_camera None s)).
Proof.
  intro s.
  apply (set_motion_detection1_return_value (P := scripted false)
           sample_camera (VInt 1) s) with (p := PFields []);
    [reflexivity | discriminate].
Defined.

(** The camera reports the state 1: asleep. *)
Lemma is_asleep_cases_witness :
  let s := initial (P := scripted false)
             [Some "<CGI_Result><result>0</result><state>1</state></CGI_Result>"] in
  fst (is_asleep sample_camera None s) = Returned (0, true).
Proof.
  intro s.
  destruct (is_asleep_cases (P := scripted false) sample_camera None s
              (snd (execute_command sample_camera "getAlexaState" None None
                      false s))
              0 (PFields [("state", VStr "1")]) eq_refl)
    as (_ & _ & H).
  rewrite (H [("state", VStr "1")] "1" 1 eq_refl eq_refl eq_refl eq_refl).
  reflexivity.
Defined.

(** An NTP server that is not supported. *)
Lemma set_system_time_checks_server_witness :
  let s := initial (P := scripted false) [Some sample_denied_reply] in
  set_system_time sample_camera (VInt 0) (VStr "pool.ntp.org") (VInt 0)
    (VInt 1) (VInt 0) (VInt 0) (VInt 0) (VInt 2024) (VInt 1) (VInt 1)
    (VInt 0) (VInt 0) (VInt 0) None s
  = (Exc ValueError, s).
Proof.
  intro s.
  apply (set_system_time_checks_server (P := scripted false) sample_camera
           (VInt 0) (VStr "pool.ntp.org") (VInt 0) (VInt 1) (VInt 0)
           (VInt 0) (VInt 0) (VInt 2024) (VInt 1) (VInt 1) (VInt 0)
           (VInt 0) (VInt 0) None s).
  reflexivity.
Defined.

Lemma snap_picture_2_returns_bytes_witness :
  fst (snap_picture_2 (P := scripted false) sample_camera None
         (initial (P := scripted false) [Some "JFIF<"]))
  = Ret (Some (FOSCAM_SUCCESS, PRaw "JFIF<")).
Proof.
  apply (snap_picture_2_returns_bytes (P := scripted false) sample_camera
           (initial (P := scripted false) [Some "JFIF<"]) "JFIF<");
    reflexivity.
Defined.

(** The request fails. *)
Lemma transport_failure_unavailable_witness :
  fst (send_command (P := scripted false) sample_camera "getDevState"
         None false (initial (P := scripted false) [None]))
  = Ret (ERROR_FOSCAM_UNAVAILABLE, PNone).
Proof.
  apply (transport_failure_unavailable (P := scripted false) sample_camera
           "getDevState" None false (initial (P := scripted false) [None])).
  reflexivity.
Defined.

(** The reply is cut off. *)
Lemma parse_failure_unavailable_witness :
  fst (send_command (P := scripted false) sample_camera "getDevState"
         None false
         (initial (P := scripted false) [Some "<CGI_Result><result>0"]))
  = Ret (ERROR_FOSCAM_UNAVAILABLE, PNone).
Proof.
  apply (parse_failure_unavailable (P := scripted false) sample_camera
           "getDevState" None
           (initial (P := scripted false) [Some "<CGI_Result><result>0"])
           "<CGI_Result><result>0");
    reflexivity.
Defined.

(** The code of a denied command, under the limit of 4300 digits. *)
Lemma result_code_round_trip_witness :
  py_int (P := scripted false) (string_of_Z ERROR_FOSCAM_CMD)
  = Some ERROR_FOSCAM_CMD.
Proof.
  apply (result_code_round_trip (P := scripted false) ERROR_FOSCAM_CMD).
  right. simpl. lia.
Defined.
